(** * ChromeOS Graylog Agent: the extension packager

    A shallow embedding of [tools/package_extension.py] and the properties
    of its host-pattern normalizer and of its packaging pipeline.

    Python [str] values are modelled as [string]: sequences of code points
    below 256, one per [ascii].  The built-in string methods the script
    calls ([strip], [lower], [startswith], [endswith], [format]) follow
    CPython on that range.  The pattern set is a [gset string]; [sorted]
    is a merge sort for the code-point order on strings.

    The packager runs in a state monad over a file system (a finite map
    from paths to directories and files), the lines printed and the
    library calls made, with Python's exceptions as the error results.
    The JSON reader and writer, the zip encoder, the location of the
    extension directory and the name of the temporary directory are
    parameters of the run. *)

From Stdlib Require Import Ascii String ZArith Lia.
From stdpp Require Import base option list sorting strings pretty gmap.

Set Warnings "-clear-no-such-hyp,-register-all".

(** ** Python string built-ins *)

Module Py.

(** [str.isspace] on one code point: the ASCII white space table of
    CPython (TAB..CR, FS..US, SPACE) and, above 127, NEL and NBSP. *)
Definition isspace (c : ascii) : bool :=
  let n := N_of_ascii c in
  ((9 <=? n) && (n <=? 13) || (28 <=? n) && (n <=? 32)
   || (n =? 133) || (n =? 160))%N.

(** [str.lower] on one code point: A..Z and the Latin-1 capitals
    U+00C0..U+00DE, the multiplication sign U+00D7 apart. *)
Definition lower_char (c : ascii) : ascii :=
  let n := N_of_ascii c in
  if ((65 <=? n) && (n <=? 90)
      || (192 <=? n) && (n <=? 222) && negb (n =? 215))%N
  then ascii_of_N (n + 32) else c.

Fixpoint lower (s : string) : string :=
  match s with
  | EmptyString => EmptyString
  | String c s' => String (lower_char c) (lower s')
  end.

Fixpoint lstrip (s : string) : string :=
  match s with
  | EmptyString => EmptyString
  | String c s' => if isspace c then lstrip s' else s
  end.

Fixpoint rstrip (s : string) : string :=
  match s with
  | EmptyString => EmptyString
  | String c s' =>
      match rstrip s' with
      | EmptyString => if isspace c then EmptyString else String c EmptyString
      | r => String c r
      end
  end.

(** [s.strip()] with no argument. *)
Definition strip (s : string) : string := rstrip (lstrip s).

(** [s.startswith(p)]. *)
Definition startswith (s p : string) : bool := String.prefix p s.

(** [s.endswith(p)]: some tail of [s] is [p]. *)
Fixpoint endswith (s p : string) : bool :=
  String.eqb s p ||
  match s with
  | EmptyString => false
  | String _ s' => endswith s' p
  end.

(** Truth value of a [str]: the empty string is falsy. *)
Definition truthy (s : string) : bool :=
  match s with EmptyString => false | _ => true end.

(** [sorted] on a set of strings.  The elements are distinct and the
    order is total, so the result does not depend on the order in which
    the set is iterated. *)
Definition sorted (X : gset string) : list string :=
  merge_sort String.le (elements X).

End Py.

(** ** The pattern normalizer *)

(** [HOST_PATTERN_TEMPLATE.format(scheme=..., host=...)] for the template
    [{scheme}://{host}/*]. *)
Definition HOST_PATTERN_TEMPLATE (scheme host : string) : string :=
  scheme +:+ "://" +:+ host +:+ "/*".

Definition ensure_trailing_wildcard (pattern : string) : string :=
  if Py.endswith pattern "/*" then pattern
  else if Py.endswith pattern "/" then pattern +:+ "*"
  else pattern +:+ "/*".

(** The test of line 80, on the stripped candidate. *)
Definition has_scheme (candidate : string) : bool :=
  let lower := Py.lower candidate in
  Py.startswith lower "http://" || Py.startswith lower "https://".

(** One iteration of the loop over [hosts]: the pattern set after the
    entry [raw], from the pattern set before. *)
Definition normalize_step (allow_http : bool) (patterns : gset string)
    (raw : string) : gset string :=
  if negb (Py.truthy raw) then patterns
  else
    let candidate := Py.strip raw in
    if negb (Py.truthy candidate) then patterns
    else if has_scheme candidate then
      {[ ensure_trailing_wildcard candidate ]} ∪ patterns
    else
      let patterns := {[ HOST_PATTERN_TEMPLATE "https" candidate ]} ∪ patterns in
      if allow_http
      then {[ HOST_PATTERN_TEMPLATE "http" candidate ]} ∪ patterns
      else patterns.

Definition normalize_host_patterns (hosts : list string) (allow_http : bool)
    : list string :=
  Py.sorted (foldl (normalize_step allow_http) ∅ hosts).

(** The two worked examples of the specification. *)
Example normalize_example_mixed :
  normalize_host_patterns ["example.com"; "https://api.example.com/v1"] false
  = ["https://api.example.com/v1/*"; "https://example.com/*"].
Proof. vm_compute. reflexivity. Qed.

Example normalize_example_insecure :
  normalize_host_patterns ["foo.com"] true
  = ["http://foo.com/*"; "https://foo.com/*"].
Proof. vm_compute. reflexivity. Qed.

Example normalize_example_blank :
  normalize_host_patterns [""; "  "; " HTTP://a/ "; "a"; "a "] false
  = ["HTTP://a/*"; "https://a/*"].
Proof. vm_compute. reflexivity. Qed.

(** ** Facts about the string built-ins *)

Section string_facts.
Implicit Types (s t p : string) (c : ascii).

Lemma string_app_cons c s t : String c s +:+ t = String c (s +:+ t).
Proof. reflexivity. Qed.

Lemma string_app_assoc s t p : (s +:+ t) +:+ p = s +:+ t +:+ p.
Proof.
  induction s as [|c s IH]; [reflexivity|].
  rewrite !string_app_cons. by f_equal.
Qed.

Lemma string_app_empty_inv s t : s +:+ t = EmptyString → s = EmptyString ∧ t = EmptyString.
Proof. destruct s; [intros H; split; [done|exact H]|discriminate]. Qed.

(** [endswith] decides the existence of a head before the suffix. *)
Lemma endswith_spec s p : Py.endswith s p = true ↔ ∃ pre, s = pre +:+ p.
Proof.
  induction s as [|c s IH].
  - change (Py.endswith EmptyString p) with (String.eqb EmptyString p || false).
    rewrite orb_false_r, String.eqb_eq. split.
    + intros <-. by exists EmptyString.
    + intros [pre Hpre]. symmetry in Hpre.
      by apply string_app_empty_inv in Hpre as [_ ->].
  - change (Py.endswith (String c s) p)
      with (String.eqb (String c s) p || Py.endswith s p).
    rewrite orb_true_iff, String.eqb_eq, IH. split.
    + intros [<-|[pre ->]]; [by exists EmptyString|by exists (String c pre)].
    + intros [[|c' pre] Hpre]; [by left|right].
      rewrite string_app_cons in Hpre. injection Hpre as _ ->. by exists pre.
Qed.

Lemma endswith_app s p : Py.endswith (s +:+ p) p = true.
Proof. apply endswith_spec. by exists s. Qed.


Lemma lstrip_nonspace c s : Py.isspace c = false → Py.lstrip (String c s) = String c s.
Proof. simpl. by intros ->. Qed.

Lemma rstrip_nonspace s c :
  Py.isspace c = false →
  Py.rstrip (s +:+ String c EmptyString) = s +:+ String c EmptyString.
Proof.
  intros Hc. induction s as [|a s IH].
  - simpl. by rewrite Hc.
  - rewrite string_app_cons. simpl. rewrite IH. by destruct s.
Qed.

(** Only [h] and [H] lower to [h], and neither is white space. *)
Lemma lower_char_h_nonspace c : Py.lower_char c = "h"%char → Py.isspace c = false.
Proof. destruct c as [[] [] [] [] [] [] [] []]; vm_compute; congruence. Qed.

Lemma startswith_cons a s c p :
  Py.startswith (String a s) (String c p)
  = if ascii_dec c a then Py.startswith s p else false.
Proof. reflexivity. Qed.

Lemma startswith_app s t p :
  Py.startswith s p = true → Py.startswith (s +:+ t) p = true.
Proof.
  unfold Py.startswith. revert s.
  induction p as [|c p IH]; intros s.
  - intros _. by destruct (s +:+ t).
  - destruct s as [|a s]; [done|].
    rewrite string_app_cons. simpl. destruct (ascii_dec c a); [apply IH|done].
Qed.

Lemma lower_app s t : Py.lower (s +:+ t) = Py.lower s +:+ Py.lower t.
Proof.
  induction s as [|c s IH]; [reflexivity|].
  rewrite string_app_cons. simpl. by rewrite IH.
Qed.
End string_facts.

(** ** Facts about the normalizer's helpers *)

Section pattern_facts.
Implicit Types (s c p h : string).

Lemma has_scheme_app s t : has_scheme s = true → has_scheme (s +:+ t) = true.
Proof.
  unfold has_scheme. rewrite lower_app, !orb_true_iff.
  intros [H|H]; [left|right]; by apply startswith_app.
Qed.

Lemma has_scheme_truthy s : has_scheme s = true → Py.truthy s = true.
Proof. by destruct s. Qed.

Lemma has_scheme_lstrip s : has_scheme s = true → Py.lstrip s = s.
Proof.
  destruct s as [|a s]; [done|]. intros H.
  apply lstrip_nonspace, lower_char_h_nonspace.
  unfold has_scheme in H.
  change (Py.lower (String a s)) with (String (Py.lower_char a) (Py.lower s)) in H.
  rewrite !startswith_cons in H.
  by destruct (ascii_dec "h" (Py.lower_char a)).
Qed.

Lemma endswith_wildcard_rstrip s : Py.endswith s "/*" = true → Py.rstrip s = s.
Proof.
  intros [pre ->]%endswith_spec.
  change "/*" with ("/" +:+ "*"). rewrite <-string_app_assoc.
  by apply rstrip_nonspace.
Qed.

(** The three cases of [ensure_trailing_wildcard]. *)
Lemma ensure_trailing_wildcard_keep p :
  Py.endswith p "/*" = true → ensure_trailing_wildcard p = p.
Proof. unfold ensure_trailing_wildcard. by intros ->. Qed.

Lemma ensure_trailing_wildcard_slash p :
  Py.endswith p "/*" = false → Py.endswith p "/" = true →
  ensure_trailing_wildcard p = p +:+ "*".
Proof. unfold ensure_trailing_wildcard. by intros -> ->. Qed.

Lemma ensure_trailing_wildcard_other p :
  Py.endswith p "/*" = false → Py.endswith p "/" = false →
  ensure_trailing_wildcard p = p +:+ "/*".
Proof. unfold ensure_trailing_wildcard. by intros -> ->. Qed.

Lemma ensure_trailing_wildcard_endswith p :
  Py.endswith (ensure_trailing_wildcard p) "/*" = true.
Proof.
  unfold ensure_trailing_wildcard.
  destruct (Py.endswith p "/*") eqn:E1; [done|].
  destruct (Py.endswith p "/") eqn:E2; [|apply endswith_app].
  apply endswith_spec in E2 as [pre ->]. apply endswith_spec. exists pre.
  by rewrite string_app_assoc.
Qed.

Lemma ensure_trailing_wildcard_has_scheme p :
  has_scheme p = true → has_scheme (ensure_trailing_wildcard p) = true.
Proof.
  intros H. unfold ensure_trailing_wildcard.
  destruct (Py.endswith p "/*"); [done|].
  destruct (Py.endswith p "/"); by apply has_scheme_app.
Qed.

Lemma template_endswith scheme h :
  Py.endswith (HOST_PATTERN_TEMPLATE scheme h) "/*" = true.
Proof.
  unfold HOST_PATTERN_TEMPLATE. rewrite <-!string_app_assoc. apply endswith_app.
Qed.

Lemma template_https_has_scheme h : has_scheme (HOST_PATTERN_TEMPLATE "https" h) = true.
Proof.
  change (has_scheme ("https://" +:+ (h +:+ "/*")) = true). by apply has_scheme_app.
Qed.

Lemma template_http_has_scheme h : has_scheme (HOST_PATTERN_TEMPLATE "http" h) = true.
Proof.
  change (has_scheme ("http://" +:+ (h +:+ "/*")) = true). by apply has_scheme_app.
Qed.

(** The two templates never collide: they differ at the fifth character. *)
Lemma template_http_ne_https h h' :
  HOST_PATTERN_TEMPLATE "http" h ≠ HOST_PATTERN_TEMPLATE "https" h'.
Proof. discriminate. Qed.

(** A pattern in final form: it has a scheme and ends in the wildcard. *)
Definition final_form (p : string) : Prop :=
  has_scheme p = true ∧ Py.endswith p "/*" = true.

Lemma final_form_strip p : final_form p → Py.strip p = p.
Proof.
  intros [Hs He]. unfold Py.strip.
  rewrite has_scheme_lstrip by done. by apply endswith_wildcard_rstrip.
Qed.

Lemma final_form_step allow_http (X : gset string) p :
  final_form p → normalize_step allow_http X p = {[ p ]} ∪ X.
Proof.
  intros Hp. pose proof Hp as [Hs He]. unfold normalize_step.
  rewrite (final_form_strip p Hp), (has_scheme_truthy p Hs), Hs. simpl.
  by rewrite ensure_trailing_wildcard_keep.
Qed.
End pattern_facts.

(** ** The pattern set of a host list *)

Section normalizer_facts.
Implicit Types (hosts : list string) (X : gset string) (raw p : string).

(** The patterns one entry contributes. *)
Definition entry_patterns (allow_http : bool) (raw : string) : gset string :=
  normalize_step allow_http ∅ raw.

Lemma normalize_step_union allow_http X raw :
  normalize_step allow_http X raw = entry_patterns allow_http raw ∪ X.
Proof.
  unfold entry_patterns, normalize_step.
  repeat case_match; set_solver.
Qed.

Lemma elem_of_entry_patterns allow_http raw p :
  p ∈ entry_patterns allow_http raw ↔
  Py.truthy (Py.strip raw) = true ∧
  if has_scheme (Py.strip raw)
  then p = ensure_trailing_wildcard (Py.strip raw)
  else p = HOST_PATTERN_TEMPLATE "https" (Py.strip raw) ∨
       (allow_http = true ∧ p = HOST_PATTERN_TEMPLATE "http" (Py.strip raw)).
Proof.
  unfold entry_patterns, normalize_step.
  destruct raw as [|a raw]; [set_solver|].
  cbn [Py.truthy negb].
  destruct (Py.truthy (Py.strip (String a raw))); cbn [negb]; [|set_solver].
  destruct (has_scheme (Py.strip (String a raw))); [set_solver|].
  destruct allow_http; set_solver.
Qed.

Lemma elem_of_foldl_step allow_http hosts X p :
  p ∈ foldl (normalize_step allow_http) X hosts ↔
  p ∈ X ∨ ∃ raw, raw ∈ hosts ∧ p ∈ entry_patterns allow_http raw.
Proof.
  revert X. induction hosts as [|raw hosts IH]; intros X; simpl.
  - set_solver.
  - rewrite IH, normalize_step_union, elem_of_union. split.
    + intros [[?|?]|(raw' & ? & ?)]; [right|by left|right].
      * exists raw. by rewrite elem_of_cons; auto.
      * exists raw'. by rewrite elem_of_cons; auto.
    + intros [?|(raw' & [->|?]%elem_of_cons & ?)]; eauto.
Qed.

Lemma elem_of_sorted X p : p ∈ Py.sorted X ↔ p ∈ X.
Proof.
  unfold Py.sorted. by rewrite merge_sort_Permutation, elem_of_elements.
Qed.

Lemma list_to_set_sorted X : list_to_set (Py.sorted X) = X.
Proof. apply set_eq. intros p. by rewrite elem_of_list_to_set, elem_of_sorted. Qed.

Lemma sorted_singleton p : Py.sorted {[ p ]} = [p].
Proof. unfold Py.sorted. by rewrite elements_singleton. Qed.


Lemma elem_of_normalize hosts allow_http p :
  p ∈ normalize_host_patterns hosts allow_http ↔
  ∃ raw, raw ∈ hosts ∧ p ∈ entry_patterns allow_http raw.
Proof.
  unfold normalize_host_patterns.
  rewrite elem_of_sorted, elem_of_foldl_step. set_solver.
Qed.

(** Every pattern an entry contributes is in final form. *)
Lemma entry_patterns_final allow_http raw p :
  p ∈ entry_patterns allow_http raw → final_form p.
Proof.
  intros [Ht Hp]%elem_of_entry_patterns. unfold final_form.
  destruct (has_scheme (Py.strip raw)) eqn:Hs.
  - subst p. split.
    + by apply ensure_trailing_wildcard_has_scheme.
    + apply ensure_trailing_wildcard_endswith.
  - destruct Hp as [->|[_ ->]]; split;
      auto using template_endswith, template_https_has_scheme,
                 template_http_has_scheme.
Qed.

Lemma normalize_final hosts allow_http :
  Forall final_form (normalize_host_patterns hosts allow_http).
Proof.
  apply Forall_forall. intros p (raw & _ & Hp)%elem_of_normalize.
  by eapply entry_patterns_final.
Qed.

(** On patterns in final form the loop only collects its input. *)
Lemma foldl_step_final allow_http (l : list string) X :
  Forall final_form l →
  foldl (normalize_step allow_http) X l = list_to_set l ∪ X.
Proof.
  intros Hl. revert X. induction Hl as [|p l Hp _ IH]; intros X; simpl.
  - set_solver.
  - rewrite IH, final_form_step by done. set_solver.
Qed.
End normalizer_facts.

(** ** Properties of the normalizer *)

Section last_character.
Implicit Types (s t : string) (a b : ascii).

Lemma string_snoc_inj s t a b :
  s +:+ String a EmptyString = t +:+ String b EmptyString → a = b.
Proof.
  revert t. induction s as [|c s IH]; intros [|d t] H.
  - by injection H.
  - rewrite string_app_cons in H. injection H as _ H.
    symmetry in H. by apply string_app_empty_inv in H as [_ ?].
  - rewrite string_app_cons in H. injection H as _ H.
    by apply string_app_empty_inv in H as [_ ?].
  - rewrite !string_app_cons in H. injection H as _ H. by apply IH in H.
Qed.

(** A string that ends in a slash does not end in the wildcard. *)
Lemma endswith_slash_not_wildcard s :
  Py.endswith s "/" = true → Py.endswith s "/*" = false.
Proof.
  intros [pre ->]%endswith_spec.
  destruct (Py.endswith (pre +:+ "/") "/*") eqn:E; [|done].
  apply endswith_spec in E as [pre' E].
  change "/*" with ("/" +:+ "*") in E. rewrite <-string_app_assoc in E.
  by apply string_snoc_inj in E.
Qed.
End last_character.

(** C1: for every list of raw hosts and every value of the flag, the list
    [normalize_host_patterns] returns has no duplicate and is sorted in
    ascending code-point order (every element is below all later ones). *)
Theorem C1_output_sorted_nodup (hosts : list string) (allow_http : bool) :
  NoDup (normalize_host_patterns hosts allow_http) ∧
  StronglySorted String.le (normalize_host_patterns hosts allow_http).
Proof.
  unfold normalize_host_patterns, Py.sorted. split.
  - rewrite merge_sort_Permutation. apply NoDup_elements.
  - apply StronglySorted_merge_sort; apply _.
Qed.

(** C2, as the code has it: a bare host [h] among the entries always puts
    its https pattern in the output.  With the flag off its http pattern is
    in the output exactly when some entry with a scheme normalizes to it, so
    never when [h] is the only entry; with the flag on both patterns are in
    the output. *)
Theorem C2_bare_host (hosts : list string) (raw : string) :
  raw ∈ hosts →
  Py.truthy (Py.strip raw) = true →
  has_scheme (Py.strip raw) = false →
  let h := Py.strip raw in
  HOST_PATTERN_TEMPLATE "https" h ∈ normalize_host_patterns hosts false ∧
  (HOST_PATTERN_TEMPLATE "http" h ∈ normalize_host_patterns hosts false ↔
   ∃ other, other ∈ hosts ∧ has_scheme (Py.strip other) = true ∧
            ensure_trailing_wildcard (Py.strip other) = HOST_PATTERN_TEMPLATE "http" h) ∧
  normalize_host_patterns [raw] false = [HOST_PATTERN_TEMPLATE "https" h] ∧
  HOST_PATTERN_TEMPLATE "https" h ∈ normalize_host_patterns hosts true ∧
  HOST_PATTERN_TEMPLATE "http" h ∈ normalize_host_patterns hosts true.
Proof.
  intros Hin Ht Hs h. subst h. repeat split.
  - apply elem_of_normalize. exists raw. split; [done|].
    apply elem_of_entry_patterns. rewrite Hs. auto.
  - intros (other & Ho & Hp)%elem_of_normalize.
    apply elem_of_entry_patterns in Hp as [Hto Hp].
    destruct (has_scheme (Py.strip other)) eqn:Hso.
    + by exists other.
    + destruct Hp as [Hp|[? _]]; [|done].
      by apply template_http_ne_https in Hp.
  - intros (other & Ho & Hso & Hp). apply elem_of_normalize.
    exists other. split; [done|]. apply elem_of_entry_patterns.
    rewrite Hso. split; [|done].
    apply has_scheme_truthy, Hso.
  - unfold normalize_host_patterns. simpl. unfold normalize_step.
    assert (Py.truthy raw = true) as -> by (by destruct raw).
    rewrite Ht, Hs. simpl. rewrite (right_id_L ∅ (∪)). apply sorted_singleton.
  - apply elem_of_normalize. exists raw. split; [done|].
    apply elem_of_entry_patterns. rewrite Hs. auto.
  - apply elem_of_normalize. exists raw. split; [done|].
    apply elem_of_entry_patterns. rewrite Hs. auto.
Qed.

Lemma C2_bare_host_witness :
  " example.com " ∈ [" example.com "; "http://example.com"] ∧
  HOST_PATTERN_TEMPLATE "https" "example.com"
    ∈ normalize_host_patterns [" example.com "; "http://example.com"] false ∧
  HOST_PATTERN_TEMPLATE "http" "example.com"
    ∈ normalize_host_patterns [" example.com "; "http://example.com"] false ∧
  normalize_host_patterns [" example.com "] false = ["https://example.com/*"].
Proof.
  assert (" example.com " ∈ [" example.com "; "http://example.com"]) as Hin
    by apply list_elem_of_here.
  split; [exact Hin|].
  destruct (C2_bare_host [" example.com "; "http://example.com"] " example.com "
              Hin eq_refl eq_refl) as (H1 & H2 & H3 & _).
  split; [exact H1|]. split; [|exact H3].
  apply H2. exists "http://example.com".
  split; [apply list_elem_of_further, list_elem_of_here|].
  split; reflexivity.
Defined.

(** C2 as stated fails: with the flag off, the http pattern of the bare
    host [example.com] is in the output when the list also holds the entry
    [http://example.com]. *)
Lemma C2_counterexample :
  "example.com" ∈ ["example.com"; "http://example.com"] ∧
  Py.truthy (Py.strip "example.com") = true ∧
  has_scheme (Py.strip "example.com") = false ∧
  normalize_host_patterns ["example.com"; "http://example.com"] false
  = [HOST_PATTERN_TEMPLATE "http" (Py.strip "example.com");
     HOST_PATTERN_TEMPLATE "https" (Py.strip "example.com")].
Proof.
  split; [by apply list_elem_of_here|].
  split; [reflexivity|]. split; [reflexivity|].
  vm_compute. reflexivity.
Qed.

(** C3: an entry whose stripped value starts with [http://] or [https://]
    in any letter case is added as [ensure_trailing_wildcard] leaves it:
    unchanged when it ends in the wildcard, with a star appended when it
    ends in a slash, and with slash and star appended otherwise. *)
Theorem C3_full_pattern (hosts : list string) (allow_http : bool) (raw : string) :
  raw ∈ hosts →
  has_scheme (Py.strip raw) = true →
  let candidate := Py.strip raw in
  (Py.endswith candidate "/*" = true →
   candidate ∈ normalize_host_patterns hosts allow_http) ∧
  (Py.endswith candidate "/" = true →
   candidate +:+ "*" ∈ normalize_host_patterns hosts allow_http) ∧
  (Py.endswith candidate "/*" = false → Py.endswith candidate "/" = false →
   candidate +:+ "/*" ∈ normalize_host_patterns hosts allow_http).
Proof.
  intros Hin Hs candidate. subst candidate.
  assert (ensure_trailing_wildcard (Py.strip raw)
            ∈ normalize_host_patterns hosts allow_http) as Hens.
  { apply elem_of_normalize. exists raw. split; [done|].
    apply elem_of_entry_patterns. rewrite Hs.
    split; [by apply has_scheme_truthy|done]. }
  repeat split.
  - intros E. by rewrite ensure_trailing_wildcard_keep in Hens.
  - intros E.
    by rewrite ensure_trailing_wildcard_slash in Hens
      by auto using endswith_slash_not_wildcard.
  - intros E1 E2. by rewrite ensure_trailing_wildcard_other in Hens.
Qed.

Lemma C3_full_pattern_witness :
  "HTTPS://a.example/*" ∈ normalize_host_patterns ["HTTPS://a.example/*"] false ∧
  "http://b.example/" +:+ "*" ∈ normalize_host_patterns [" http://b.example/"] true ∧
  "https://c.example/v1" +:+ "/*" ∈ normalize_host_patterns ["https://c.example/v1"] false.
Proof.
  split; [|split].
  - apply (C3_full_pattern ["HTTPS://a.example/*"] false "HTTPS://a.example/*");
      [apply list_elem_of_here|reflexivity|reflexivity].
  - apply (C3_full_pattern [" http://b.example/"] true " http://b.example/");
      [apply list_elem_of_here|reflexivity|reflexivity].
  - apply (C3_full_pattern ["https://c.example/v1"] false "https://c.example/v1");
      [apply list_elem_of_here|reflexivity|reflexivity|reflexivity].
Defined.

(** C4: the normalizer is idempotent, and a pattern that has a scheme and
    already ends in the wildcard comes back unchanged. *)
Theorem C4_idempotent (hosts : list string) (allow_http : bool) :
  normalize_host_patterns (normalize_host_patterns hosts allow_http) allow_http
  = normalize_host_patterns hosts allow_http ∧
  ∀ p, has_scheme p = true → Py.endswith p "/*" = true →
       normalize_host_patterns [p] allow_http = [p].
Proof.
  split.
  - unfold normalize_host_patterns at 1.
    rewrite foldl_step_final by apply normalize_final.
    rewrite (right_id_L ∅ (∪)). unfold normalize_host_patterns.
    by rewrite list_to_set_sorted.
  - intros p Hs He. unfold normalize_host_patterns. simpl.
    rewrite final_form_step by done.
    rewrite (right_id_L ∅ (∪)). apply sorted_singleton.
Qed.

Lemma C4_idempotent_witness :
  normalize_host_patterns
    (normalize_host_patterns ["b.example"; "HTTP://a.example"] true) true
  = normalize_host_patterns ["b.example"; "HTTP://a.example"] true ∧
  normalize_host_patterns ["https://a.example/*"] false = ["https://a.example/*"].
Proof.
  split.
  - exact (proj1 (C4_idempotent ["b.example"; "HTTP://a.example"] true)).
  - exact (proj2 (C4_idempotent [] false) "https://a.example/*" eq_refl eq_refl).
Defined.

(** C5: every string in the output of [normalize_host_patterns] ends in
    the wildcard. *)
Theorem C5_output_ends_in_wildcard (hosts : list string) (allow_http : bool) :
  Forall (λ p, Py.endswith p "/*" = true) (normalize_host_patterns hosts allow_http).
Proof.
  eapply Forall_impl; [apply normalize_final|]. by intros p [_ ?].
Qed.

(** C10: the output with the flag off is included in the output with the
    flag on. *)
Theorem C10_monotone_in_flag (hosts : list string) (p : string) :
  p ∈ normalize_host_patterns hosts false →
  p ∈ normalize_host_patterns hosts true.
Proof.
  rewrite !elem_of_normalize. intros (raw & Hin & Hp). exists raw. split; [done|].
  revert Hp. rewrite !elem_of_entry_patterns.
  intros [Ht Hp]. split; [done|].
  destruct (has_scheme (Py.strip raw)); [done|].
  destruct Hp as [?|[? _]]; [by left|done].
Qed.

Lemma C10_monotone_in_flag_witness :
  "https://foo.com/*" ∈ normalize_host_patterns ["foo.com"; "http://bar.org/"] false ∧
  "https://foo.com/*" ∈ normalize_host_patterns ["foo.com"; "http://bar.org/"] true.
Proof.
  assert ("https://foo.com/*"
            ∈ normalize_host_patterns ["foo.com"; "http://bar.org/"] false) as H.
  { vm_compute. apply list_elem_of_further, list_elem_of_here. }
  split; [exact H|].
  exact (C10_monotone_in_flag ["foo.com"; "http://bar.org/"] "https://foo.com/*" H).
Defined.

(** * The packager *)

(** ** The manifest document

    What [json.load] returns: [None], a [bool], an [int], a [float] (kept
    as its text), a [str], a [list] or a [dict] with [str] keys.  A [dict]
    keeps its keys in insertion order, which [json.dump] writes out, so it
    is an association list with no repeated key. *)

Inductive json : Type :=
  | JNull
  | JBool (b : bool)
  | JInt (n : Z)
  | JFloat (repr : string)
  | JStr (s : string)
  | JArr (items : list json)
  | JObj (members : list (string * json)).

(** [d.get(k)] *)
Fixpoint dict_get (k : string) (d : list (string * json)) : option json :=
  match d with
  | [] => None
  | (k', v) :: d' => if String.eqb k' k then Some v else dict_get k d'
  end.

(** [d[k] = v]: the value of an existing key is replaced in place, a new
    key goes to the end. *)
Fixpoint dict_set (k : string) (v : json) (d : list (string * json))
    : list (string * json) :=
  match d with
  | [] => [(k, v)]
  | (k', v') :: d' =>
      if String.eqb k' k then (k, v) :: d' else (k', v') :: dict_set k v d'
  end.

(** ** Paths and the file system

    A path is the list of its components below the root: every path of
    the model is absolute, one given relative to the working directory is
    taken as resolved.  The file system maps the paths that exist to a
    directory or to a regular file with its bytes; modes, owners and dates
    are not part of it, so what the library refuses on their account is
    outside the model. *)

Abbreviation path := (list string).

Inductive node : Type :=
  | Dir
  | File (data : string).

(** [str(p)] *)
Definition path_str (p : path) : string :=
  match p with
  | [] => "/"
  | _ => foldr (λ part acc, "/" +:+ part +:+ acc) EmptyString p
  end.

(** [p.as_posix()] for a relative path. *)
Definition as_posix (rel : path) : string := String.concat "/" rel.

(** [p.parent] *)
Definition path_parent (p : path) : path := take (length p - 1) p.

(** [p.relative_to(base)], [None] where Python raises [ValueError]. *)
Fixpoint relative_to (base p : path) : option path :=
  match base, p with
  | [], _ => Some p
  | b :: base', c :: p' => if String.eqb b c then relative_to base' p' else None
  | _ :: _, [] => None
  end.

(** The order of [Path] objects: component by component. *)
Fixpoint path_leb (p q : path) : bool :=
  match p, q with
  | [], _ => true
  | _ :: _, [] => false
  | a :: p', b :: q' =>
      match String.compare a b with
      | Lt => true
      | Gt => false
      | Eq => path_leb p' q'
      end
  end.

(** The library calls that reach the file system, in the order made. *)
Inductive call : Type :=
  | CallExists (p : path)
  | CallTemporaryDirectory (p : path)
  | CallCleanup (p : path)
  | CallCopytree (src dst : path)
  | CallOpenRead (p : path)
  | CallOpenWrite (p : path)
  | CallMkdir (p : path)
  | CallZipFile (p : path).

Record world : Type := World {
  fs : gmap path node;
  stdout : list string;
  calls : list call;
}.

Definition set_fs (f : gmap path node → gmap path node) (w : world) : world :=
  World (f (fs w)) (stdout w) (calls w).

Definition add_call (c : call) (w : world) : world :=
  World (fs w) (stdout w) (calls w ++ [c]).

Definition add_stdout (line : string) (w : world) : world :=
  World (fs w) (stdout w ++ [line]) (calls w).

(** ** Exceptions and the state monad of a run *)

Inductive exn : Type :=
  | SystemExit (msg : string)
  | FileExistsError (p : path)
  | FileNotFoundError (p : path)
  | NotADirectoryError (p : path)
  | IsADirectoryError (p : path)
  | JSONDecodeError
  | TypeError
  | AttributeError.

Inductive result (A : Type) : Type :=
  | Ok (a : A)
  | Raise (e : exn).
Arguments Ok {A} a.
Arguments Raise {A} e.

Definition M (A : Type) : Type := world → result A * world.

Definition ret {A} (a : A) : M A := λ w, (Ok a, w).

Definition raise {A} (e : exn) : M A := λ w, (Raise e, w).

Definition bind {A B} (m : M A) (k : A → M B) : M B := λ w,
  match m w with
  | (Ok a, w') => k a w'
  | (Raise e, w') => (Raise e, w')
  end.

Notation "'let*' x := m 'in' k" := (bind m (λ x, k))
  (at level 10, x name, m at level 100, k at level 200, only parsing).
Notation "m ;;; k" := (bind m (λ _, k))
  (at level 100, k at level 200, right associativity, only parsing).

(** The status the interpreter exits with under [sys.exit(main())]: the
    returned integer, or 1 for [SystemExit] with a message and for any
    exception that is not caught. *)
Definition exit_status (r : result Z) : Z :=
  match r with
  | Ok n => n
  | Raise _ => 1
  end.

Definition newline : string := String "010"%char EmptyString.

(** The parsed command line ([argparse.Namespace]). *)
Record Namespace : Type := {
  output : path;
  hosts : list string;
  allow_http : bool;
  version : option string;
  dry_run : bool;
}.

(** ** The library calls and the script's functions *)

Definition is_file (o : option node) : bool :=
  match o with Some (File _) => true | _ => false end.

(** The non-empty prefixes of a path, shortest first: the directories
    [mkdir(parents=True)] goes through, the path itself last. *)
Definition path_prefixes (p : path) : list path :=
  (λ n, take n p) <$> seq 1 (length p).

(** [shutil.rmtree(p)]: [p] and everything below it is gone. *)
Definition rmtree (p : path) (m : gmap path node) : gmap path node :=
  filter (λ kv, ¬ p `prefix_of` kv.1) m.

(** The tree below [src] laid over [dst]. *)
Definition copy_entries (src dst : path) (from into : gmap path node)
    : gmap path node :=
  map_fold (λ p n acc,
      match relative_to src p with
      | Some rel => <[dst ++ rel := n]> acc
      | None => acc
      end) into from.

Definition strictly_below (dir p : path) : bool :=
  match relative_to dir p with
  | Some (_ :: _) => true
  | _ => false
  end.

(** [sorted(dir.rglob("*"))] with what each path holds. *)
Definition rglob_sorted (dir : path) (m : gmap path node) : list (path * node) :=
  merge_sort (λ x y : path * node, path_leb x.1 y.1)
    (filter (λ kv : path * node, strictly_below dir kv.1) (map_to_list m)).

(** One iteration of the loop of [create_archive]: the member written for
    a path, none for a directory. *)
Definition archive_member (source_dir : path) (kv : path * node)
    : option (string * string) :=
  match kv.2 with
  | Dir => None
  | File data =>
      match relative_to source_dir kv.1 with
      | Some arcname => Some (as_posix arcname, data)
      | None => None
      end
  end.

Section packager.
(** The fixed source directory, the name [tempfile] hands out in this
    run, the JSON reader and writer ([json.load]; [json.dumps] with
    [indent=2]) and the bytes of a zip archive with given members. *)
Context (EXTENSION_DIR : path) (tmpdir : path)
        (json_load : string → option json)
        (json_dumps : json → string)
        (zip_bytes : list (string * string) → string).

Definition print (line : string) : M unit := λ w, (Ok tt, add_stdout line w).

(** [p.exists()] *)
Definition path_exists (p : path) : M bool := λ w,
  (Ok (bool_decide (is_Some (fs w !! p))), add_call (CallExists p) w).

Definition validate_environment : M unit :=
  let* found := path_exists EXTENSION_DIR in
  if negb found
  then raise (SystemExit ("Extension directory not found: "
                            +:+ path_str EXTENSION_DIR))
  else ret tt.

(** [with tempfile.TemporaryDirectory() as tmpdir: body]: the directory
    is made on entry and removed on every way out of the block. *)
Definition with_TemporaryDirectory {A} (body : path → M A) : M A := λ w,
  let w0 := add_call (CallTemporaryDirectory tmpdir) w in
  match fs w !! tmpdir with
  | Some _ => (Raise (FileExistsError tmpdir), w0)
  | None =>
      let '(r, w1) := body tmpdir (set_fs (<[tmpdir := Dir]>) w0) in
      (r, add_call (CallCleanup tmpdir) (set_fs (rmtree tmpdir) w1))
  end.

(** [shutil.copytree(src, dst)], for a destination that does not lie in
    the source tree: the copy is of the tree as it is on entry. *)
Definition copytree (src dst : path) : M unit := λ w,
  let w0 := add_call (CallCopytree src dst) w in
  match fs w !! src with
  | None => (Raise (FileNotFoundError src), w0)
  | Some (File _) => (Raise (NotADirectoryError src), w0)
  | Some Dir =>
      match fs w !! dst with
      | Some _ => (Raise (FileExistsError dst), w0)
      | None => (Ok tt, set_fs (λ m, copy_entries src dst m m) w0)
      end
  end.

(** [None] of the reader stands for every way [json.load] fails on the
    bytes of a file; they all show here as [JSONDecodeError]. *)
Definition load_manifest (p : path) : M json := λ w,
  let w0 := add_call (CallOpenRead p) w in
  match fs w !! p with
  | None => (Raise (FileNotFoundError p), w0)
  | Some Dir => (Raise (IsADirectoryError p), w0)
  | Some (File data) =>
      match json_load data with
      | Some manifest => (Ok manifest, w0)
      | None => (Raise JSONDecodeError, w0)
      end
  end.

Definition write_manifest (p : path) (manifest : json) : M unit := λ w,
  let w0 := add_call (CallOpenWrite p) w in
  match fs w !! p with
  | Some Dir => (Raise (IsADirectoryError p), w0)
  | _ => (Ok tt, set_fs (<[p := File (json_dumps manifest +:+ newline)]>) w0)
  end.

(** [p.mkdir(parents=True, exist_ok=True)]: a regular file at [p] or
    above it makes the call fail, with [p] as the path of the error. *)
Definition mkdir_parents (p : path) : M unit := λ w,
  let w0 := add_call (CallMkdir p) w in
  match List.find (λ q, is_file (fs w !! q)) (path_prefixes p) with
  | Some q =>
      (Raise (if decide (q = p) then FileExistsError p
              else NotADirectoryError p), w0)
  | None =>
      (Ok tt, set_fs (λ m, foldr (λ q acc, <[q := Dir]> acc) m (path_prefixes p)) w0)
  end.

(** [zipfile.ZipFile(p, "w")] on entry: the file is created or
    truncated. *)
Definition ZipFile_open (p : path) : M unit := λ w,
  let w0 := add_call (CallZipFile p) w in
  match fs w !! p with
  | Some Dir => (Raise (IsADirectoryError p), w0)
  | _ => (Ok tt, set_fs (<[p := File (zip_bytes [])]>) w0)
  end.

(** The members [archive.write] adds, in the order of the loop. *)
Definition archive_members (source_dir : path) : M (list (string * string)) := λ w,
  (Ok (omap (archive_member source_dir) (rglob_sorted source_dir (fs w))), w).

Definition ZipFile_close (p : path) (members : list (string * string)) : M unit :=
  λ w, (Ok tt, set_fs (<[p := File (zip_bytes members)]>) w).

Definition create_archive (source_dir output_path : path) : M unit :=
  mkdir_parents (path_parent output_path) ;;;
  ZipFile_open output_path ;;;
  let* members := archive_members source_dir in
  ZipFile_close output_path members.

(** [manifest[k] = v] *)
Definition setitem (manifest : json) (k : string) (v : json) : M json :=
  match manifest with
  | JObj d => ret (JObj (dict_set k v d))
  | _ => raise TypeError
  end.

(** [manifest.get(k, default)] *)
Definition get (manifest : json) (k : string) (default : json) : M json :=
  match manifest with
  | JObj d => ret (from_option id default (dict_get k d))
  | _ => raise AttributeError
  end.

(** The body of [main] after [parse_args].  The block under [with]
    gives [Some n] where it returns [n] and [None] where control falls
    out of it. *)
Definition main (args : Namespace) : M Z :=
  validate_environment ;;;
  (if dry_run args
   then print "Running in dry-run mode; no files will be written."
   else ret tt) ;;;
  let host_patterns := normalize_host_patterns (hosts args) (allow_http args) in
  let* returned :=
    with_TemporaryDirectory (λ tmp_dir_path,
      let working_dir := tmp_dir_path ++ ["extension"] in
      copytree EXTENSION_DIR working_dir ;;;
      let manifest_path := working_dir ++ ["manifest.json"] in
      let* manifest := load_manifest manifest_path in
      let* manifest :=
        match version args with
        | Some v =>
            if Py.truthy v then setitem manifest "version" (JStr v)
            else ret manifest
        | None => ret manifest
        end in
      let* manifest :=
        match host_patterns with
        | _ :: _ => setitem manifest "host_permissions" (JArr (JStr <$> host_patterns))
        | [] => ret manifest
        end in
      if dry_run args then
        print "Manifest preview:" ;;;
        let* v := get manifest "version" JNull in
        let* h := get manifest "host_permissions" (JArr []) in
        print (json_dumps (JObj [("version", v); ("host_permissions", h)])) ;;;
        ret (Some 0%Z)
      else
        write_manifest manifest_path manifest ;;;
        create_archive working_dir (output args) ;;;
        print ("Created package: " +:+ path_str (output args)) ;;;
        ret None) in
  match returned with
  | Some n => ret n
  | None => ret 0%Z
  end.
End packager.

(** ** A concrete run

    A small file system with the extension tree, and simple stand-ins for
    the JSON reader and writer and for the zip encoder, to run [main] on. *)

Module Demo.
Definition quote : string := String "034"%char EmptyString.

(** A compact JSON writer. *)
Fixpoint dumps (v : json) : string :=
  match v with
  | JNull => "null"
  | JBool b => if b then "true" else "false"
  | JInt n => pretty n
  | JFloat repr => repr
  | JStr s => quote +:+ s +:+ quote
  | JArr items => "[" +:+ String.concat ", " (List.map dumps items) +:+ "]"
  | JObj members =>
      "{" +:+ String.concat ", "
                (List.map (λ kv : string * json,
                     let '(k, x) := kv in quote +:+ k +:+ quote +:+ ": " +:+ dumps x)
                   members) +:+ "}"
  end.

Definition members0 : list (string * json) :=
  [("name", JStr "ChromeOS Graylog Agent");
   ("version", JStr "1.0");
   ("host_permissions", JArr [JStr "https://old.example/*"])].

Definition manifest0 : json := JObj members0.

(** A reader that knows the one document of the demo tree. *)
Definition load (text : string) : option json :=
  if String.eqb text (dumps manifest0) then Some manifest0 else None.

(** Each member as its name, a line break, its data and a line break. *)
Definition zip_bytes (members : list (string * string)) : string :=
  String.concat EmptyString
    (List.map (λ m : string * string, m.1 +:+ newline +:+ m.2 +:+ newline) members).

Definition EXTENSION_DIR : path := ["repo"; "extension"].
Definition tmpdir : path := ["tmp"; "tmpk3v9x2"].
Definition dist : path := ["repo"; "dist"; "chromeos-graylog-agent.zip"].

Definition fs0 : gmap path node :=
  list_to_map
    [(["repo"], Dir);
     (["repo"; "extension"], Dir);
     (["repo"; "extension"; "manifest.json"], File (dumps manifest0));
     (["repo"; "extension"; "assets"], Dir);
     (["repo"; "extension"; "assets"; "icon.png"], File "PNG");
     (["tmp"], Dir)].

Definition w0 : world := World fs0 [] [].

Definition run (args : Namespace) : result Z * world :=
  main EXTENSION_DIR tmpdir load dumps zip_bytes args w0.

(** No option given. *)
Definition args_plain : Namespace :=
  {| output := dist; hosts := []; allow_http := false;
     version := None; dry_run := false |}.

(** A version and two hosts. *)
Definition args_release : Namespace :=
  {| output := dist; hosts := ["logs.example"; "https://graylog.example/api"];
     allow_http := false; version := Some "2.0"; dry_run := false |}.

(** The empty string as the version. *)
Definition args_empty_version : Namespace :=
  {| output := dist; hosts := []; allow_http := false;
     version := Some EmptyString; dry_run := false |}.

(** A preview. *)
Definition args_preview : Namespace :=
  {| output := dist; hosts := ["logs.example"]; allow_http := true;
     version := Some "2.0"; dry_run := true |}.

(** A file system without the extension directory. *)
Definition w_empty : world := World ∅ [] [].
End Demo.

(** ** Facts about dictionaries, paths and the file system *)

Section dict_facts.
Implicit Types (k : string) (v : json) (d : list (string * json)).

Lemma dict_get_set_eq k v d : dict_get k (dict_set k v d) = Some v.
Proof.
  induction d as [|[k' v'] d IH]; simpl.
  - by rewrite String.eqb_refl.
  - destruct (String.eqb k' k) eqn:E; simpl.
    + by rewrite String.eqb_refl.
    + by rewrite E.
Qed.

Lemma dict_get_set_ne k k' v d :
  k ≠ k' → dict_get k' (dict_set k v d) = dict_get k' d.
Proof.
  intros Hne. induction d as [|[k0 v0] d IH]; simpl.
  - by apply String.eqb_neq in Hne as ->.
  - destruct (String.eqb k0 k) eqn:E; simpl.
    + apply String.eqb_eq in E as ->.
      by apply String.eqb_neq in Hne as ->.
    + by rewrite IH.
Qed.
End dict_facts.

Section path_facts.
Implicit Types (base p q rel : path) (m : gmap path node).

Lemma relative_to_Some base p rel :
  relative_to base p = Some rel ↔ p = base ++ rel.
Proof.
  revert p. induction base as [|b base IH]; intros [|c p]; simpl;
    try (split; congruence).
  destruct (String.eqb_spec b c) as [->|Hne].
  - rewrite IH. split; congruence.
  - split; congruence.
Qed.

Lemma relative_to_app base rel : relative_to base (base ++ rel) = Some rel.
Proof. by apply relative_to_Some. Qed.

Lemma relative_to_None base p :
  relative_to base p = None ↔ ¬ base `prefix_of` p.
Proof.
  split.
  - intros Hn [rel ->]. by rewrite relative_to_app in Hn.
  - intros Hn. destruct (relative_to base p) as [rel|] eqn:E; [|done].
    apply relative_to_Some in E. destruct Hn. by exists rel.
Qed.


Lemma elem_of_path_prefixes q p : q ∈ path_prefixes p → q `prefix_of` p.
Proof.
  unfold path_prefixes. intros (n & -> & _)%list_elem_of_fmap.
  apply prefix_take.
Qed.

Lemma prefix_of_parent q p : q `prefix_of` path_parent p → q `prefix_of` p.
Proof. intros H. etrans; [exact H|]. apply prefix_take. Qed.

(** [rmtree] removes exactly what is at or below the path. *)
Lemma lookup_rmtree p m q :
  rmtree p m !! q = if decide (p `prefix_of` q) then None else m !! q.
Proof.
  unfold rmtree. rewrite map_lookup_filter.
  destruct (m !! q) as [n|]; simpl; [|by case_decide].
  case_decide; case_guard; simpl in *; done.
Qed.

(** The copied tree holds, below [dst], what the source holds below
    [src]; paths outside are as before. *)
Lemma lookup_copy_entries (src dst : path) (from into : gmap path node) q :
  copy_entries src dst from into !! q =
  match relative_to dst q with
  | Some rel =>
      match from !! (src ++ rel) with
      | Some n => Some n
      | None => into !! q
      end
  | None => into !! q
  end.
Proof.
  unfold copy_entries. revert q.
  apply (map_fold_weak_ind (λ r (from : gmap path node), ∀ q,
    r !! q = match relative_to dst q with
             | Some rel => match from !! (src ++ rel) with
                           | Some n => Some n
                           | None => into !! q
                           end
             | None => into !! q
             end)).
  - intros q. destruct (relative_to dst q); by rewrite ?lookup_empty.
  - intros i x m r Hi IH q.
    destruct (relative_to src i) as [rel0|] eqn:Ei.
    + apply relative_to_Some in Ei as ->.
      destruct (decide (q = dst ++ rel0)) as [->|Hq].
      * by rewrite lookup_insert_eq, relative_to_app, lookup_insert_eq.
      * rewrite lookup_insert_ne by done. rewrite IH.
        destruct (relative_to dst q) as [rel|] eqn:Eq; [|done].
        apply relative_to_Some in Eq as ->.
        rewrite lookup_insert_ne; [done|]. intros ?%(inj (app src)). congruence.
    + rewrite IH. destruct (relative_to dst q) as [rel|]; [|done].
      rewrite lookup_insert_ne; [done|].
      intros ->. by rewrite relative_to_app in Ei.
Qed.

Lemma lookup_mkdirs (l : list path) m q :
  q ∉ l → foldr (λ q acc, <[q := Dir]> acc) m l !! q = m !! q.
Proof.
  induction l as [|p l IH]; simpl; [done|].
  intros [? ?]%not_elem_of_cons. rewrite lookup_insert_ne by done. auto.
Qed.
Lemma elem_of_rglob_sorted (dir : path) m (kv : path * node) :
  kv ∈ rglob_sorted dir m ↔ strictly_below dir kv.1 = true ∧ m !! kv.1 = Some kv.2.
Proof.
  unfold rglob_sorted.
  rewrite merge_sort_Permutation, list_elem_of_filter.
  destruct kv as [p n]. rewrite elem_of_map_to_list. simpl.
  destruct (strictly_below dir p); naive_solver.
Qed.

(** A regular file below the archived directory is a member of the
    archive, under its relative name. *)
Lemma archive_has_file (dir : path) m name (rest : path) data :
  m !! (dir ++ name :: rest) = Some (File data) →
  (as_posix (name :: rest), data)
    ∈ omap (archive_member dir) (rglob_sorted dir m).
Proof.
  intros Hm. apply list_elem_of_omap.
  exists (dir ++ name :: rest, File data). split.
  - apply elem_of_rglob_sorted. simpl. split; [|done].
    unfold strictly_below. by rewrite relative_to_app.
  - unfold archive_member. simpl. by rewrite relative_to_app.
Qed.
End path_facts.

(** ** Running the script *)

Section monad_facts.
Context {A B : Type}.
Implicit Types (m : M A) (k : A → M B) (w : world).

Lemma bind_Ok m k w a w1 : m w = (Ok a, w1) → bind m k w = k a w1.
Proof. unfold bind. by intros ->. Qed.

Lemma bind_Raise m k w e w1 : m w = (Raise e, w1) → bind m k w = (Raise e, w1).
Proof. unfold bind. by intros ->. Qed.

Lemma bind_Ok_inv m k w b w' :
  bind m k w = (Ok b, w') → ∃ a w1, m w = (Ok a, w1) ∧ k a w1 = (Ok b, w').
Proof.
  unfold bind. destruct (m w) as [[a|e] w1]; [|done]. intros H. by exists a, w1.
Qed.
End monad_facts.

(** The manifest after the two edits of [main], for a manifest that is a
    [dict]. *)
Definition with_version (args : Namespace) (d : list (string * json))
    : list (string * json) :=
  match version args with
  | Some v => if Py.truthy v then dict_set "version" (JStr v) d else d
  | None => d
  end.

Definition with_host_permissions (args : Namespace) (d : list (string * json))
    : list (string * json) :=
  match normalize_host_patterns (hosts args) (allow_http args) with
  | _ :: _ =>
      dict_set "host_permissions"
        (JArr (JStr <$> normalize_host_patterns (hosts args) (allow_http args))) d
  | [] => d
  end.

Definition edited_manifest (args : Namespace) (d : list (string * json))
    : list (string * json) :=
  with_host_permissions args (with_version args d).

(** Nothing exists at or below the name the temporary directory gets. *)
Definition fresh (tmpdir : path) (m : gmap path node) : Prop :=
  ∀ q, tmpdir `prefix_of` q → m !! q = None.

Section packager_facts.
Context (EXTENSION_DIR : path) (tmpdir : path)
        (json_load : string → option json)
        (json_dumps : json → string)
        (zip_bytes : list (string * string) → string).
Implicit Types (args : Namespace) (w : world) (d : list (string * json)).

Local Abbreviation run := (main EXTENSION_DIR tmpdir json_load json_dumps zip_bytes).
Local Abbreviation working_dir := (tmpdir ++ ["extension"]).
Local Abbreviation manifest_path := ((tmpdir ++ ["extension"]) ++ ["manifest.json"]).

Lemma validate_environment_found w :
  is_Some (fs w !! EXTENSION_DIR) →
  validate_environment EXTENSION_DIR w = (Ok tt, add_call (CallExists EXTENSION_DIR) w).
Proof.
  intros H. unfold validate_environment, bind, path_exists.
  by rewrite bool_decide_eq_true_2.
Qed.

Lemma validate_environment_missing w :
  fs w !! EXTENSION_DIR = None →
  validate_environment EXTENSION_DIR w
  = (Raise (SystemExit ("Extension directory not found: " +:+ path_str EXTENSION_DIR)),
     add_call (CallExists EXTENSION_DIR) w).
Proof.
  intros H. unfold validate_environment, bind, path_exists.
  rewrite bool_decide_eq_false_2; [done|]. rewrite H. by intros [??].
Qed.

(** The two edits of [main] on a manifest that is a [dict]. *)
Lemma edit_version args d w :
  (match version args with
   | Some v => if Py.truthy v then setitem (JObj d) "version" (JStr v)
               else ret (JObj d)
   | None => ret (JObj d)
   end) w = (Ok (JObj (with_version args d)), w).
Proof. unfold with_version. destruct (version args) as [v|]; [destruct (Py.truthy v)|]; done. Qed.

Lemma edit_host_permissions args d w :
  (match normalize_host_patterns (hosts args) (allow_http args) with
   | _ :: _ =>
       setitem (JObj d) "host_permissions"
         (JArr (JStr <$> normalize_host_patterns (hosts args) (allow_http args)))
   | [] => ret (JObj d)
   end) w = (Ok (JObj (with_host_permissions args d)), w).
Proof.
  unfold with_host_permissions.
  by destruct (normalize_host_patterns (hosts args) (allow_http args)).
Qed.

(** The scratch copy of the manifest is the source's manifest. *)
Lemma lookup_scratch_manifest (m : gmap path node) data :
  m !! tmpdir = None →
  m !! (EXTENSION_DIR ++ ["manifest.json"]) = Some (File data) →
  copy_entries EXTENSION_DIR working_dir (<[tmpdir := Dir]> m) (<[tmpdir := Dir]> m)
    !! manifest_path = Some (File data).
Proof.
  intros Htmp Hsrc. rewrite lookup_copy_entries, relative_to_app.
  rewrite lookup_insert_ne; [by rewrite Hsrc|].
  intros E. rewrite E in Htmp. congruence.
Qed.

(** C8: when the extension directory does not exist the run raises
    [SystemExit] and exits with status 1, having made one library call,
    the existence test: no temporary directory was made, nothing was
    read, written or printed, and the file system is as it was. *)
Theorem C8_missing_source_fails_fast args w :
  fs w !! EXTENSION_DIR = None →
  run args w
  = (Raise (SystemExit ("Extension directory not found: " +:+ path_str EXTENSION_DIR)),
     World (fs w) (stdout w) (calls w ++ [CallExists EXTENSION_DIR])) ∧
  exit_status (run args w).1 ≠ 0%Z.
Proof.
  intros H.
  assert (run args w
    = (Raise (SystemExit ("Extension directory not found: " +:+ path_str EXTENSION_DIR)),
       World (fs w) (stdout w) (calls w ++ [CallExists EXTENSION_DIR]))) as Hrun.
  { unfold main.
    by rewrite (bind_Raise _ _ _ _ _ (validate_environment_missing w H)). }
  split; [exact Hrun|]. by rewrite Hrun.
Qed.

Lemma copytree_ok (src dst : path) w :
  fs w !! src = Some Dir → fs w !! dst = None →
  copytree src dst w
  = (Ok tt, set_fs (λ m, copy_entries src dst m m) (add_call (CallCopytree src dst) w)).
Proof. unfold copytree. by intros -> ->. Qed.

Lemma load_manifest_ok (p : path) w data v :
  fs w !! p = Some (File data) → json_load data = Some v →
  load_manifest json_load p w = (Ok v, add_call (CallOpenRead p) w).
Proof. unfold load_manifest. by intros -> ->. Qed.

(** After the block under [with] nothing of the scratch copy is left. *)
Lemma scratch_removed (m : gmap path node) :
  fresh tmpdir m →
  rmtree tmpdir
    (copy_entries EXTENSION_DIR working_dir (<[tmpdir := Dir]> m) (<[tmpdir := Dir]> m))
  = m.
Proof.
  intros Hfresh. apply map_eq. intros q. rewrite lookup_rmtree.
  case_decide as Hq; [by rewrite Hfresh|].
  rewrite lookup_copy_entries.
  assert (relative_to working_dir q = None) as ->.
  { apply relative_to_None. intros Hw. apply Hq.
    etrans; [|exact Hw]. by apply prefix_app_r. }
  rewrite lookup_insert_ne; [done|]. by intros ->.
Qed.

(** C9: in dry-run mode, with the extension directory in place, a
    manifest that reads as a [dict] and a scratch directory that is new
    and outside the extension directory, the run prints the notice, the
    preview header and the version and host permissions as edited, and
    returns 0.  The file system ends as it began, and the only library
    calls are the existence test, the scratch copy, the read of the
    scratch manifest and the removal of the scratch directory: no file is
    opened for writing and no archive is made. *)
Theorem C9_dry_run_preview args w data d :
  dry_run args = true →
  fs w !! EXTENSION_DIR = Some Dir →
  fs w !! (EXTENSION_DIR ++ ["manifest.json"]) = Some (File data) →
  json_load data = Some (JObj d) →
  fresh tmpdir (fs w) →
  ¬ EXTENSION_DIR `prefix_of` tmpdir →
  run args w
  = (Ok 0%Z,
     World (fs w)
       (stdout w ++
        ["Running in dry-run mode; no files will be written.";
         "Manifest preview:";
         json_dumps
           (JObj [("version",
                   from_option id JNull (dict_get "version" (edited_manifest args d)));
                  ("host_permissions",
                   from_option id (JArr [])
                     (dict_get "host_permissions" (edited_manifest args d)))])])
       (calls w ++
        [CallExists EXTENSION_DIR;
         CallTemporaryDirectory tmpdir;
         CallCopytree EXTENSION_DIR working_dir;
         CallOpenRead manifest_path;
         CallCleanup tmpdir])) ∧
  exit_status (run args w).1 = 0%Z.
Proof.
  intros Hdry Hdir Hsrc Hload Hfresh _.
  assert (fs w !! tmpdir = None) as Htmp by (by apply Hfresh).
  assert (fs w !! working_dir = None) as Hwd
    by (apply Hfresh; by apply prefix_app_r).
  match goal with |- ?run = ?res ∧ _ => assert (run = res) as Hrun end;
    [|split; [exact Hrun|by rewrite Hrun]].
  unfold main. rewrite Hdry.
  rewrite (bind_Ok _ _ _ _ _ (validate_environment_found w (mk_is_Some _ _ Hdir))).
  unfold bind at 1. unfold print at 1.
  unfold bind at 1. unfold with_TemporaryDirectory.
  cbn [fs add_call add_stdout set_fs]. rewrite Htmp.
  erewrite (bind_Ok (copytree _ _)); cycle 1.
  { apply copytree_ok; cbn [fs add_call add_stdout set_fs].
    - rewrite lookup_insert_ne; [done|]. intros E. rewrite E in Htmp. congruence.
    - rewrite lookup_insert_ne; [done|]. intros E.
      apply (f_equal length) in E. rewrite length_app in E. simpl in E. lia. }
  erewrite (bind_Ok (load_manifest _ _)); cycle 1.
  { eapply load_manifest_ok; [|exact Hload]. cbn [fs add_call add_stdout set_fs].
    by apply lookup_scratch_manifest. }
  rewrite (bind_Ok _ _ _ _ _ (edit_version args d _)).
  rewrite (bind_Ok _ _ _ _ _ (edit_host_permissions args (with_version args d) _)).
  fold (edited_manifest args d).
  unfold bind, print, get, ret.
  unfold add_call, add_stdout, set_fs. cbn [fs stdout calls].
  rewrite scratch_removed by done.
  by rewrite <-!(assoc_L (++)).
Qed.
Lemma write_manifest_ok (p : path) manifest w data :
  fs w !! p = Some (File data) →
  write_manifest json_dumps p manifest w
  = (Ok tt, set_fs (<[p := File (json_dumps manifest +:+ newline)]>)
              (add_call (CallOpenWrite p) w)).
Proof. unfold write_manifest. by intros ->. Qed.

(** A successful [create_archive] leaves at the output path an archive
    of the files below the source directory, and changes nothing outside
    the output path and the directories above it. *)
Lemma create_archive_inv (source_dir output_path : path) w w1 :
  create_archive zip_bytes source_dir output_path w = (Ok tt, w1) →
  ∃ m : gmap path node,
    (∀ q, ¬ q `prefix_of` output_path → m !! q = fs w !! q) ∧
    fs w1 = <[output_path :=
               File (zip_bytes (omap (archive_member source_dir)
                                  (rglob_sorted source_dir m)))]> m.
Proof.
  unfold create_archive. intros H.
  apply bind_Ok_inv in H as ([] & w2 & Hmk & H).
  apply bind_Ok_inv in H as ([] & w3 & Hzip & H).
  apply bind_Ok_inv in H as (members & w4 & Hmem & H).
  unfold mkdir_parents in Hmk.
  destruct (find _ _) in Hmk; [done|]. injection Hmk as <-.
  unfold ZipFile_open in Hzip. cbn [fs set_fs add_call] in Hzip.
  unfold archive_members in Hmem. injection Hmem as <- <-.
  unfold ZipFile_close in H. injection H as <-.
  set (m2 := foldr (λ q acc, <[q:=Dir]> acc) (fs w) (path_prefixes (path_parent output_path))) in *.
  assert (w3 = World (<[output_path := File (zip_bytes [])]> m2) (stdout w)
                 ((calls w ++ [CallMkdir (path_parent output_path)])
                    ++ [CallZipFile output_path])) as ->.
  { destruct (m2 !! output_path) as [[|?]|]; [done|by injection Hzip..]. }
  exists (<[output_path := File (zip_bytes [])]> m2). split; [|done].
  intros q Hq. rewrite lookup_insert_ne by (intros ->; by apply Hq).
  apply lookup_mkdirs. intros Hin%elem_of_path_prefixes.
  by apply Hq, prefix_of_parent.
Qed.

(** What a successful run that is not a dry run leaves at the output
    path: an archive that holds, as [manifest.json], the text of the
    edited manifest and a line break. *)
Lemma main_package_inv args w n w' data d :
  dry_run args = false →
  ¬ tmpdir `prefix_of` output args →
  fs w !! (EXTENSION_DIR ++ ["manifest.json"]) = Some (File data) →
  json_load data = Some (JObj d) →
  run args w = (Ok n, w') →
  n = 0%Z ∧
  ∃ members,
    fs w' !! output args = Some (File (zip_bytes members)) ∧
    ("manifest.json", json_dumps (JObj (edited_manifest args d)) +:+ newline)
      ∈ members.
Proof.
  intros Hdry Hout Hsrc Hload Hmain.
  unfold main in Hmain. rewrite Hdry in Hmain.
  apply bind_Ok_inv in Hmain as ([] & w1 & Hval & Hmain).
  assert (w1 = add_call (CallExists EXTENSION_DIR) w) as ->.
  { destruct (fs w !! EXTENSION_DIR) eqn:Hext.
    - rewrite validate_environment_found in Hval by done. by injection Hval.
    - by rewrite validate_environment_missing in Hval. }
  unfold bind at 1, ret at 1 in Hmain.
  apply bind_Ok_inv in Hmain as (returned & w2 & Hwith & Hret).
  unfold with_TemporaryDirectory in Hwith. cbn [fs add_call set_fs] in Hwith.
  destruct (fs w !! tmpdir) eqn:Htmp; [done|].
  match type of Hwith with (let '(_, _) := ?body in _) = _ =>
    destruct body as [r w3] eqn:Hbody end.
  injection Hwith as -> <-.
  apply bind_Ok_inv in Hbody as ([] & w4 & Hcopy & Hbody).
  unfold copytree in Hcopy. cbn [fs add_call set_fs] in Hcopy.
  destruct (<[tmpdir:=Dir]> (fs w) !! EXTENSION_DIR) as [[|?]|]; [|done..].
  destruct (<[tmpdir:=Dir]> (fs w) !! working_dir); [done|].
  injection Hcopy as <-.
  erewrite (bind_Ok (load_manifest _ _)) in Hbody; cycle 1.
  { eapply load_manifest_ok; [|exact Hload]. cbn [fs add_call set_fs].
    by apply lookup_scratch_manifest. }
  rewrite (bind_Ok _ _ _ _ _ (edit_version args d _)) in Hbody.
  rewrite (bind_Ok _ _ _ _ _ (edit_host_permissions args (with_version args d) _))
    in Hbody.
  fold (edited_manifest args d) in Hbody.
  erewrite (bind_Ok (write_manifest _ _ _)) in Hbody; cycle 1.
  { eapply write_manifest_ok. cbn [fs add_call set_fs].
    by apply lookup_scratch_manifest. }
  apply bind_Ok_inv in Hbody as ([] & w5 & Harch & Hbody).
  apply create_archive_inv in Harch as (m & Hm & Hfs).
  unfold bind, print, ret in Hbody. injection Hbody as <- <-.
  unfold ret in Hret. injection Hret as <- <-.
  split; [done|]. eexists. split.
  - cbn [fs add_call add_stdout set_fs]. rewrite lookup_rmtree.
    rewrite decide_False by done. rewrite Hfs. apply lookup_insert_eq.
  - change "manifest.json" with (as_posix ("manifest.json" :: [])) at 1.
    apply archive_has_file. rewrite Hm.
    + cbn [fs add_call set_fs]. rewrite <-(assoc_L (++)). apply lookup_insert_eq.
    + intros Hp. apply Hout. etrans; [|exact Hp].
      rewrite <-(assoc_L (++)). by apply prefix_app_r.
Qed.
Lemma with_version_host_permissions args d :
  dict_get "host_permissions" (with_version args d) = dict_get "host_permissions" d.
Proof.
  unfold with_version. destruct (version args) as [v|]; [|done].
  destruct (Py.truthy v); [|done]. by apply dict_get_set_ne.
Qed.

Lemma with_host_permissions_version args d :
  dict_get "version" (with_host_permissions args d) = dict_get "version" d.
Proof.
  unfold with_host_permissions.
  destruct (normalize_host_patterns _ _); [done|]. by apply dict_get_set_ne.
Qed.

(** C6: in a run that builds the archive, the manifest the archive holds
    has the [host_permissions] of the manifest as loaded when the
    normalized pattern list is empty, and the normalized list when it is
    not. *)
Theorem C6_host_permissions_overwritten_only_if_nonempty args w n w' data d :
  dry_run args = false →
  ¬ tmpdir `prefix_of` output args →
  fs w !! (EXTENSION_DIR ++ ["manifest.json"]) = Some (File data) →
  json_load data = Some (JObj d) →
  run args w = (Ok n, w') →
  ∃ members,
    fs w' !! output args = Some (File (zip_bytes members)) ∧
    ("manifest.json", json_dumps (JObj (edited_manifest args d)) +:+ newline)
      ∈ members ∧
    (normalize_host_patterns (hosts args) (allow_http args) = [] →
     dict_get "host_permissions" (edited_manifest args d)
     = dict_get "host_permissions" d) ∧
    (normalize_host_patterns (hosts args) (allow_http args) ≠ [] →
     dict_get "host_permissions" (edited_manifest args d)
     = Some (JArr (JStr <$> normalize_host_patterns (hosts args) (allow_http args)))).
Proof.
  intros Hdry Hout Hsrc Hload Hmain.
  destruct (main_package_inv args w n w' data d Hdry Hout Hsrc Hload Hmain)
    as (_ & members & Hfs & Hmem).
  exists members. split; [done|]. split; [done|].
  unfold edited_manifest, with_host_permissions. split.
  - intros ->. apply with_version_host_permissions.
  - intros Hne.
    destruct (normalize_host_patterns (hosts args) (allow_http args)) eqn:E;
      [done|].
    apply dict_get_set_eq.
Qed.

(** C7, as the code has it: in a run that builds the archive, the
    manifest the archive holds has the override as its [version] when the
    override is a non-empty string, and the [version] of the manifest as
    loaded when no override was given or the override is the empty
    string. *)
Theorem C7_version_override args w n w' data d :
  dry_run args = false →
  ¬ tmpdir `prefix_of` output args →
  fs w !! (EXTENSION_DIR ++ ["manifest.json"]) = Some (File data) →
  json_load data = Some (JObj d) →
  run args w = (Ok n, w') →
  ∃ members,
    fs w' !! output args = Some (File (zip_bytes members)) ∧
    ("manifest.json", json_dumps (JObj (edited_manifest args d)) +:+ newline)
      ∈ members ∧
    (∀ v, version args = Some v → v ≠ EmptyString →
          dict_get "version" (edited_manifest args d) = Some (JStr v)) ∧
    (version args = None ∨ version args = Some EmptyString →
     dict_get "version" (edited_manifest args d) = dict_get "version" d).
Proof.
  intros Hdry Hout Hsrc Hload Hmain.
  destruct (main_package_inv args w n w' data d Hdry Hout Hsrc Hload Hmain)
    as (_ & members & Hfs & Hmem).
  exists members. split; [done|]. split; [done|].
  unfold edited_manifest. rewrite with_host_permissions_version.
  unfold with_version. split.
  - intros v -> Hv. destruct v; [done|]. apply dict_get_set_eq.
  - by intros [->| ->].
Qed.
End packager_facts.


(** ** The concrete run, checked *)

Section demo_facts.
Import Demo.

Lemma demo_fresh : fresh tmpdir fs0.
Proof.
  intros q [k ->]. unfold fs0. apply not_elem_of_list_to_map_1.
  cbn [fmap list_fmap fst]. unfold tmpdir.
  repeat (apply not_elem_of_cons; split; [discriminate|]).
  apply not_elem_of_nil.
Qed.

Lemma demo_output_outside : ¬ tmpdir `prefix_of` dist.
Proof. intros [k Hk]. discriminate Hk. Qed.

Lemma demo_source_outside : ¬ EXTENSION_DIR `prefix_of` tmpdir.
Proof. intros [k Hk]. discriminate Hk. Qed.

Lemma demo_manifest :
  fs0 !! (EXTENSION_DIR ++ ["manifest.json"]) = Some (File (dumps manifest0)).
Proof. vm_compute. reflexivity. Qed.

Lemma demo_load : load (dumps manifest0) = Some (JObj members0).
Proof. vm_compute. reflexivity. Qed.

Lemma demo_run_ok args : (run args).1 = Ok 0%Z → run args = (Ok 0%Z, (run args).2).
Proof. destruct (run args) as [r w]. simpl. by intros ->. Qed.
End demo_facts.

Lemma C6_witness :
  ∃ members,
    fs (Demo.run Demo.args_plain).2 !! Demo.dist
    = Some (File (Demo.zip_bytes members)) ∧
    ("manifest.json",
     Demo.dumps (JObj (edited_manifest Demo.args_plain Demo.members0)) +:+ newline)
      ∈ members ∧
    dict_get "host_permissions" (edited_manifest Demo.args_plain Demo.members0)
    = Some (JArr [JStr "https://old.example/*"]).
Proof.
  destruct (C6_host_permissions_overwritten_only_if_nonempty
              Demo.EXTENSION_DIR Demo.tmpdir Demo.load Demo.dumps Demo.zip_bytes
              Demo.args_plain Demo.w0 0%Z (Demo.run Demo.args_plain).2
              (Demo.dumps Demo.manifest0) Demo.members0
              eq_refl demo_output_outside demo_manifest demo_load
              (demo_run_ok Demo.args_plain ltac:(vm_compute; reflexivity)))
    as (members & Hfs & Hmem & Hkeep & _).
  exists members. split; [exact Hfs|]. split; [exact Hmem|].
  rewrite Hkeep; [reflexivity|]. vm_compute. reflexivity.
Defined.

Lemma C7_witness :
  ∃ members,
    fs (Demo.run Demo.args_release).2 !! Demo.dist
    = Some (File (Demo.zip_bytes members)) ∧
    ("manifest.json",
     Demo.dumps (JObj (edited_manifest Demo.args_release Demo.members0)) +:+ newline)
      ∈ members ∧
    dict_get "version" (edited_manifest Demo.args_release Demo.members0)
    = Some (JStr "2.0").
Proof.
  destruct (C7_version_override
              Demo.EXTENSION_DIR Demo.tmpdir Demo.load Demo.dumps Demo.zip_bytes
              Demo.args_release Demo.w0 0%Z (Demo.run Demo.args_release).2
              (Demo.dumps Demo.manifest0) Demo.members0
              eq_refl demo_output_outside demo_manifest demo_load
              (demo_run_ok Demo.args_release ltac:(vm_compute; reflexivity)))
    as (members & Hfs & Hmem & Hset & _).
  exists members. split; [exact Hfs|]. split; [exact Hmem|].
  apply Hset; [reflexivity|discriminate].
Defined.

(** C7 as stated fails: with the empty string as the override the run
    succeeds and the manifest in the archive is the manifest as loaded,
    whose version is 1.0 and not the empty string. *)
Lemma C7_counterexample :
  version Demo.args_empty_version = Some EmptyString ∧
  (Demo.run Demo.args_empty_version).1 = Ok 0%Z ∧
  fs (Demo.run Demo.args_empty_version).2 !! Demo.dist
  = Some (File (Demo.zip_bytes
                  [("assets/icon.png", "PNG");
                   ("manifest.json", Demo.dumps (JObj Demo.members0) +:+ newline)])) ∧
  dict_get "version" Demo.members0 = Some (JStr "1.0").
Proof.
  split; [reflexivity|]. split; [vm_compute; reflexivity|].
  split; vm_compute; reflexivity.
Qed.

Lemma C8_witness :
  main Demo.EXTENSION_DIR Demo.tmpdir Demo.load Demo.dumps Demo.zip_bytes
    Demo.args_release Demo.w_empty
  = (Raise (SystemExit "Extension directory not found: /repo/extension"),
     World ∅ [] [CallExists Demo.EXTENSION_DIR]) ∧
  exit_status
    (main Demo.EXTENSION_DIR Demo.tmpdir Demo.load Demo.dumps Demo.zip_bytes
       Demo.args_release Demo.w_empty).1 ≠ 0%Z.
Proof.
  exact (C8_missing_source_fails_fast
           Demo.EXTENSION_DIR Demo.tmpdir Demo.load Demo.dumps Demo.zip_bytes
           Demo.args_release Demo.w_empty (lookup_empty _)).
Defined.

Lemma C9_witness :
  Demo.run Demo.args_preview
  = (Ok 0%Z,
     World Demo.fs0
       ["Running in dry-run mode; no files will be written.";
        "Manifest preview:";
        Demo.dumps
          (JObj [("version", JStr "2.0");
                 ("host_permissions",
                  JArr [JStr "http://logs.example/*"; JStr "https://logs.example/*"])])]
       [CallExists Demo.EXTENSION_DIR;
        CallTemporaryDirectory Demo.tmpdir;
        CallCopytree Demo.EXTENSION_DIR (Demo.tmpdir ++ ["extension"]);
        CallOpenRead ((Demo.tmpdir ++ ["extension"]) ++ ["manifest.json"]);
        CallCleanup Demo.tmpdir]) ∧
  exit_status (Demo.run Demo.args_preview).1 = 0%Z.
Proof.
  destruct (C9_dry_run_preview
              Demo.EXTENSION_DIR Demo.tmpdir Demo.load Demo.dumps Demo.zip_bytes
              Demo.args_preview Demo.w0 (Demo.dumps Demo.manifest0) Demo.members0
              eq_refl ltac:(vm_compute; reflexivity) demo_manifest demo_load
              demo_fresh demo_source_outside) as [Hrun Hexit].
  split; [|exact Hexit]. unfold Demo.run. rewrite Hrun.
  vm_compute. reflexivity.
Defined.

(** * Further properties *)

(** ** The normalizer on arbitrary host lists *)

Section strip_facts.
Implicit Types (s : string) (c : ascii).

Lemma rstrip_cons_nonspace c s :
  Py.isspace c = false → ∃ r, Py.rstrip (String c s) = String c r.
Proof.
  intros Hc. simpl. destruct (Py.rstrip s) as [|a r].
  - rewrite Hc. by exists EmptyString.
  - by exists (String a r).
Qed.

Lemma rstrip_idemp s : Py.rstrip (Py.rstrip s) = Py.rstrip s.
Proof.
  induction s as [|c s IH]; [done|]. simpl.
  destruct (Py.rstrip s) as [|a r] eqn:E.
  - destruct (Py.isspace c) eqn:Hc; [done|]. simpl. by rewrite Hc.
  - change (Py.rstrip (String c (String a r)))
      with (match Py.rstrip (String a r) with
            | EmptyString =>
                if Py.isspace c then EmptyString else String c EmptyString
            | r' => String c r'
            end).
    by rewrite IH.
Qed.

Lemma lstrip_shape s :
  Py.lstrip s = EmptyString ∨
  ∃ c s', Py.lstrip s = String c s' ∧ Py.isspace c = false.
Proof.
  induction s as [|c s IH]; [by left|]. simpl.
  destruct (Py.isspace c) eqn:Hc; [done|]. right. by exists c, s.
Qed.

Lemma strip_idemp s : Py.strip (Py.strip s) = Py.strip s.
Proof.
  unfold Py.strip. destruct (lstrip_shape s) as [->|(c & s' & -> & Hc)]; [done|].
  destruct (rstrip_cons_nonspace c s' Hc) as [r Hr].
  rewrite Hr, (lstrip_nonspace c r Hc), <-Hr. apply rstrip_idemp.
Qed.

Lemma strip_empty_truthy s : Py.truthy (Py.strip s) = true → Py.truthy s = true.
Proof. by destruct s. Qed.
End strip_facts.

Section normalizer_more.
Implicit Types (hosts : list string) (X : gset string) (raw p : string).

Lemma sorted_empty : Py.sorted ∅ = [].
Proof. unfold Py.sorted. by rewrite elements_empty. Qed.

Lemma length_sorted X : length (Py.sorted X) = size X.
Proof. unfold Py.sorted. by rewrite merge_sort_Permutation. Qed.

Lemma normalize_ext hosts1 hosts2 allow_http :
  (∀ p, p ∈ normalize_host_patterns hosts1 allow_http ↔
        p ∈ normalize_host_patterns hosts2 allow_http) →
  normalize_host_patterns hosts1 allow_http = normalize_host_patterns hosts2 allow_http.
Proof.
  intros H. unfold normalize_host_patterns. f_equal. apply set_eq. intros p.
  specialize (H p). unfold normalize_host_patterns in H.
  by rewrite !elem_of_sorted in H.
Qed.

Lemma entry_patterns_blank allow_http raw :
  Py.strip raw = EmptyString → entry_patterns allow_http raw = ∅.
Proof.
  intros H. apply set_eq. intros p. rewrite elem_of_entry_patterns, H.
  set_solver.
Qed.

Lemma entry_patterns_nonblank allow_http raw :
  Py.strip raw ≠ EmptyString → ∃ p, p ∈ entry_patterns allow_http raw.
Proof.
  intros H.
  assert (Py.truthy (Py.strip raw) = true) as Ht by (by destruct (Py.strip raw)).
  destruct (has_scheme (Py.strip raw)) eqn:Hs.
  - exists (ensure_trailing_wildcard (Py.strip raw)).
    apply elem_of_entry_patterns. by rewrite Hs.
  - exists (HOST_PATTERN_TEMPLATE "https" (Py.strip raw)).
    apply elem_of_entry_patterns. rewrite Hs. auto.
Qed.

Lemma entry_patterns_strip allow_http raw :
  entry_patterns allow_http (Py.strip raw) = entry_patterns allow_http raw.
Proof.
  apply set_eq. intros p. by rewrite !elem_of_entry_patterns, strip_idemp.
Qed.

Lemma entry_patterns_size allow_http raw :
  size (entry_patterns allow_http raw) ≤ if allow_http then 2 else 1.
Proof.
  unfold entry_patterns, normalize_step.
  destruct (Py.truthy raw); cbn [negb]; [|rewrite size_empty; destruct allow_http; lia].
  destruct (Py.truthy (Py.strip raw)); cbn [negb];
    [|rewrite size_empty; destruct allow_http; lia].
  destruct (has_scheme (Py.strip raw)).
  - rewrite (right_id_L ∅ (∪)), size_singleton. destruct allow_http; lia.
  - rewrite (right_id_L ∅ (∪)). destruct allow_http.
    + rewrite size_union_alt, size_singleton.
      etrans; [apply Nat.add_le_mono_l, subseteq_size,
                 (subseteq_difference_l _ _ _ (reflexivity _))|].
      rewrite size_singleton. lia.
    + by rewrite size_singleton.
Qed.

Lemma foldl_step_size allow_http hosts X :
  size (foldl (normalize_step allow_http) X hosts)
  ≤ size X + (if allow_http then 2 else 1) * length hosts.
Proof.
  revert X. induction hosts as [|raw hosts IH]; intros X; simpl; [lia|].
  etrans; [apply IH|]. rewrite normalize_step_union, size_union_alt.
  pose proof (entry_patterns_size allow_http raw) as Hsz.
  assert (size (X ∖ entry_patterns allow_http raw) ≤ size X) as Hd
    by (apply subseteq_size; set_solver).
  destruct allow_http; lia.
Qed.
End normalizer_more.

Section template_injective.
Implicit Types (s t h : string).

Lemma string_length_app s t : String.length (s +:+ t) = String.length s + String.length t.
Proof.
  induction s as [|c s IH]; [done|]. rewrite string_app_cons. simpl. by rewrite IH.
Qed.

Lemma string_app_inv_tail s s' t : s +:+ t = s' +:+ t → s = s'.
Proof.
  revert s'. induction s as [|c s IH]; intros [|c' s'] H.
  - done.
  - change (t = String c' (s' +:+ t)) in H. apply (f_equal String.length) in H.
    simpl in H. rewrite string_length_app in H. lia.
  - change (String c (s +:+ t) = t) in H. apply (f_equal String.length) in H.
    simpl in H. rewrite string_length_app in H. lia.
  - rewrite !string_app_cons in H. injection H as -> H. f_equal. by apply IH.
Qed.

Lemma template_inj scheme h h' :
  HOST_PATTERN_TEMPLATE scheme h = HOST_PATTERN_TEMPLATE scheme h' → h = h'.
Proof.
  unfold HOST_PATTERN_TEMPLATE. intros H.
  apply (inj (String.append scheme)), (inj (String.append "://")) in H.
  by apply string_app_inv_tail in H.
Qed.
End template_injective.

(** X1: the output depends only on which entries occur in the host list,
    not on their order or on how often each occurs. *)
Theorem X1_normalize_order_and_repeats (hosts1 hosts2 : list string) (allow_http : bool) :
  (∀ raw, raw ∈ hosts1 ↔ raw ∈ hosts2) →
  normalize_host_patterns hosts1 allow_http = normalize_host_patterns hosts2 allow_http.
Proof.
  intros H. apply normalize_ext. intros p. rewrite !elem_of_normalize.
  split; intros (raw & Hin & Hp); exists raw; by rewrite ?H in *.
Qed.

Lemma X1_witness :
  normalize_host_patterns ["b.example"; "http://a.example"; "b.example"] true
  = normalize_host_patterns ["http://a.example"; "b.example"] true.
Proof.
  apply (X1_normalize_order_and_repeats
           ["b.example"; "http://a.example"; "b.example"]
           ["http://a.example"; "b.example"] true).
  intros raw. rewrite !elem_of_cons, elem_of_nil. tauto.
Defined.

(** X2: the output is empty exactly when every entry is empty or white
    space only. *)
Theorem X2_normalize_empty_iff_blank (hosts : list string) (allow_http : bool) :
  normalize_host_patterns hosts allow_http = [] ↔
  Forall (λ raw, Py.strip raw = EmptyString) hosts.
Proof.
  split.
  - intros Hnil. apply Forall_forall. intros raw Hin.
    destruct (decide (Py.strip raw = EmptyString)) as [|Hne]; [done|].
    destruct (entry_patterns_nonblank allow_http raw Hne) as [p Hp].
    assert (p ∈ normalize_host_patterns hosts allow_http) as Hmem
      by (apply elem_of_normalize; eauto).
    rewrite Hnil in Hmem. by apply elem_of_nil in Hmem.
  - intros Hall.
    destruct (normalize_host_patterns hosts allow_http) as [|p l] eqn:E; [done|].
    assert (p ∈ normalize_host_patterns hosts allow_http) as Hmem
      by (rewrite E; apply list_elem_of_here).
    apply elem_of_normalize in Hmem as (raw & Hin & Hp).
    rewrite Forall_forall in Hall.
    rewrite (entry_patterns_blank _ _ (Hall raw Hin)) in Hp. set_solver.
Qed.

(** X3: white space around the entries does not matter: stripping every
    entry beforehand gives the same output. *)
Theorem X3_normalize_ignores_outer_space (hosts : list string) (allow_http : bool) :
  normalize_host_patterns (Py.strip <$> hosts) allow_http
  = normalize_host_patterns hosts allow_http.
Proof.
  apply normalize_ext. intros p. rewrite !elem_of_normalize. split.
  - intros (raw' & (raw & -> & Hin)%list_elem_of_fmap & Hp).
    exists raw. by rewrite entry_patterns_strip in Hp.
  - intros (raw & Hin & Hp). exists (Py.strip raw). split.
    + by apply list_elem_of_fmap_2.
    + by rewrite entry_patterns_strip.
Qed.

(** X4: every pattern in the output starts with [http://] or [https://],
    in some letter case. *)
Theorem X4_output_has_scheme (hosts : list string) (allow_http : bool) :
  Forall (λ p, has_scheme p = true) (normalize_host_patterns hosts allow_http).
Proof.
  eapply Forall_impl; [apply normalize_final|]. by intros p [? _].
Qed.

(** X5: an entry yields at most one pattern with the flag off and at most
    two with it on, so the output is at most as long, or twice as long, as
    the host list. *)
Theorem X5_output_length_bound (hosts : list string) (allow_http : bool) :
  length (normalize_host_patterns hosts allow_http)
  ≤ (if allow_http then 2 else 1) * length hosts.
Proof.
  unfold normalize_host_patterns. rewrite length_sorted.
  etrans; [apply foldl_step_size|]. by rewrite size_empty.
Qed.

(** X6: [ensure_trailing_wildcard] only appends: the result is the input
    followed by nothing, a star, or a slash and a star; and applying it
    again changes nothing. *)
Theorem X6_ensure_trailing_wildcard_appends (pattern : string) :
  (ensure_trailing_wildcard pattern = pattern ∨
   ensure_trailing_wildcard pattern = pattern +:+ "*" ∨
   ensure_trailing_wildcard pattern = pattern +:+ "/*") ∧
  ensure_trailing_wildcard (ensure_trailing_wildcard pattern)
  = ensure_trailing_wildcard pattern.
Proof.
  split.
  - unfold ensure_trailing_wildcard.
    destruct (Py.endswith pattern "/*"); [by left|].
    destruct (Py.endswith pattern "/"); auto.
  - apply ensure_trailing_wildcard_keep, ensure_trailing_wildcard_endswith.
Qed.

(** X7: the patterns of a concatenated host list are those of its two
    parts together. *)
Theorem X7_normalize_app (hosts1 hosts2 : list string) (allow_http : bool) (p : string) :
  p ∈ normalize_host_patterns (hosts1 ++ hosts2) allow_http ↔
  p ∈ normalize_host_patterns hosts1 allow_http ∨
  p ∈ normalize_host_patterns hosts2 allow_http.
Proof.
  rewrite !elem_of_normalize. setoid_rewrite elem_of_app. naive_solver.
Qed.

(** X8: what the flag adds: the output with the flag on holds the output
    with the flag off and, for each entry without a scheme, its http
    pattern; nothing else. *)
Theorem X8_flag_adds_http_of_bare_hosts (hosts : list string) (p : string) :
  p ∈ normalize_host_patterns hosts true ↔
  p ∈ normalize_host_patterns hosts false ∨
  ∃ raw, raw ∈ hosts ∧ Py.strip raw ≠ EmptyString ∧
         has_scheme (Py.strip raw) = false ∧
         p = HOST_PATTERN_TEMPLATE "http" (Py.strip raw).
Proof.
  rewrite !elem_of_normalize. split.
  - intros (raw & Hin & Hp). apply elem_of_entry_patterns in Hp as [Ht Hp].
    destruct (has_scheme (Py.strip raw)) eqn:Hs.
    + left. exists raw. split; [done|]. apply elem_of_entry_patterns.
      by rewrite Hs.
    + destruct Hp as [->|[_ ->]].
      * left. exists raw. split; [done|]. apply elem_of_entry_patterns.
        rewrite Hs. auto.
      * right. exists raw. repeat split; try done. by intros E; rewrite E in Ht.
  - intros [(raw & Hin & Hp)|(raw & Hin & Hne & Hs & ->)]; exists raw; (split; [done|]).
    + revert Hp. rewrite !elem_of_entry_patterns. intros [Ht Hp]. split; [done|].
      destruct (has_scheme (Py.strip raw)); [done|].
      destruct Hp as [?|[? _]]; [by left|done].
    + apply elem_of_entry_patterns. rewrite Hs. split; [|auto].
      by destruct (Py.strip raw).
Qed.

(** X9: the host is copied into the pattern as written, so two entries
    without a scheme whose stripped values differ, if only in letter case,
    give two patterns. *)
Theorem X9_distinct_hosts_distinct_patterns (raw1 raw2 : string) :
  Py.strip raw1 ≠ EmptyString → Py.strip raw2 ≠ EmptyString →
  has_scheme (Py.strip raw1) = false → has_scheme (Py.strip raw2) = false →
  Py.strip raw1 ≠ Py.strip raw2 →
  HOST_PATTERN_TEMPLATE "https" (Py.strip raw1)
    ≠ HOST_PATTERN_TEMPLATE "https" (Py.strip raw2) ∧
  length (normalize_host_patterns [raw1; raw2] false) = 2.
Proof.
  intros Hn1 Hn2 Hs1 Hs2 Hne.
  assert (HOST_PATTERN_TEMPLATE "https" (Py.strip raw1)
            ≠ HOST_PATTERN_TEMPLATE "https" (Py.strip raw2)) as Hdiff
    by (by intros ?%template_inj).
  split; [done|].
  unfold normalize_host_patterns. rewrite length_sorted. cbn [foldl].
  unfold normalize_step.
  assert (Py.truthy (Py.strip raw1) = true) as Ht1 by (by destruct (Py.strip raw1)).
  assert (Py.truthy (Py.strip raw2) = true) as Ht2 by (by destruct (Py.strip raw2)).
  rewrite (strip_empty_truthy _ Ht1), (strip_empty_truthy _ Ht2), Ht1, Ht2, Hs1, Hs2.
  cbn [negb]. rewrite (right_id_L ∅ (∪)), size_union, !size_singleton by set_solver.
  done.
Qed.

Lemma X9_witness :
  HOST_PATTERN_TEMPLATE "https" "Example.com" ≠ HOST_PATTERN_TEMPLATE "https" "example.com" ∧
  length (normalize_host_patterns ["Example.com"; " example.com"] false) = 2.
Proof.
  apply (X9_distinct_hosts_distinct_patterns "Example.com" " example.com");
    vm_compute; congruence.
Defined.

(** ** What a run leaves alone *)

(** A computation that leaves every path in [Q] as it found it, whether
    it returns or raises. *)
Definition preserves {A} (Q : path → Prop) (m : M A) : Prop :=
  ∀ w q, Q q → fs (m w).2 !! q = fs w !! q.

Section preserves_facts.
Context (EXTENSION_DIR : path) (tmpdir : path)
        (json_load : string → option json)
        (json_dumps : json → string)
        (zip_bytes : list (string * string) → string).
Context (Q : path → Prop).

Lemma preserves_ret {A} (a : A) : preserves Q (ret a).
Proof. by intros w q _. Qed.

Lemma preserves_raise {A} e : preserves Q (raise (A:=A) e).
Proof. by intros w q _. Qed.

Lemma preserves_bind {A B} (m : M A) (k : A → M B) :
  preserves Q m → (∀ a, preserves Q (k a)) → preserves Q (bind m k).
Proof.
  intros Hm Hk w q Hq. unfold bind. specialize (Hm w q Hq).
  destruct (m w) as [[a|e] w1]; simpl in *; [|done].
  by rewrite (Hk a w1 q Hq).
Qed.

Lemma preserves_print line : preserves Q (print line).
Proof. by intros w q _. Qed.

Lemma preserves_validate_environment :
  preserves Q (validate_environment EXTENSION_DIR).
Proof.
  intros w q _. unfold validate_environment, bind, path_exists.
  by destruct (negb _).
Qed.

Lemma preserves_load_manifest p : preserves Q (load_manifest json_load p).
Proof.
  intros w q _. unfold load_manifest.
  destruct (fs w !! p) as [[|data]|]; [done| |done].
  by destruct (json_load data).
Qed.

Lemma preserves_setitem manifest k v : preserves Q (setitem manifest k v).
Proof. intros w q _. by destruct manifest. Qed.

Lemma preserves_get manifest k v : preserves Q (get manifest k v).
Proof. intros w q _. by destruct manifest. Qed.

Lemma preserves_copytree (src dst : path) :
  (∀ q, Q q → ¬ dst `prefix_of` q) → preserves Q (copytree src dst).
Proof.
  intros HQ w q Hq. unfold copytree.
  destruct (fs w !! src) as [[|?]|]; [|done..].
  destruct (fs w !! dst); [done|]. cbn [fs set_fs add_call snd].
  rewrite lookup_copy_entries.
  by rewrite (proj2 (relative_to_None dst q) (HQ q Hq)).
Qed.

Lemma preserves_write_manifest (p : path) manifest :
  (∀ q, Q q → q ≠ p) → preserves Q (write_manifest json_dumps p manifest).
Proof.
  intros HQ w q Hq. unfold write_manifest.
  assert (fs (set_fs <[p:=File (json_dumps manifest +:+ newline)]>
                (add_call (CallOpenWrite p) w)) !! q = fs w !! q) as Hins.
  { cbn [fs set_fs add_call]. apply lookup_insert_ne. intros ->. by apply (HQ q). }
  by destruct (fs w !! p) as [[|?]|].
Qed.

Lemma preserves_create_archive (source_dir output_path : path) :
  (∀ q, Q q → ¬ q `prefix_of` output_path) →
  preserves Q (create_archive zip_bytes source_dir output_path).
Proof.
  intros HQ. unfold create_archive.
  assert (∀ q, Q q → q ≠ output_path) as Hne by (intros q Hq ->; by apply (HQ _ Hq)).
  apply preserves_bind; [|intros _; apply preserves_bind; [|intros _; apply preserves_bind]].
  - intros w q Hq. unfold mkdir_parents.
    destruct (find _ _); [done|]. cbn [fs set_fs add_call snd].
    apply lookup_mkdirs. intros Hin%elem_of_path_prefixes.
    by apply (HQ q Hq), prefix_of_parent.
  - intros w q Hq. unfold ZipFile_open.
    assert (fs (set_fs <[output_path:=File (zip_bytes [])]>
                  (add_call (CallZipFile output_path) w)) !! q = fs w !! q) as Hins.
    { cbn [fs set_fs add_call]. apply lookup_insert_ne. intros ->. by apply (Hne q). }
    by destruct (fs w !! output_path) as [[|?]|].
  - by intros w q _.
  - intros members w q Hq. unfold ZipFile_close. cbn [fs set_fs snd].
    apply lookup_insert_ne. intros ->. by apply (Hne q).
Qed.

Lemma preserves_with_TemporaryDirectory {A} (body : path → M A) :
  (∀ q, Q q → ¬ tmpdir `prefix_of` q) →
  preserves Q (body tmpdir) →
  preserves Q (with_TemporaryDirectory tmpdir body).
Proof.
  intros HQ Hbody w q Hq. unfold with_TemporaryDirectory.
  destruct (fs w !! tmpdir); [done|].
  specialize (Hbody (set_fs <[tmpdir:=Dir]> (add_call (CallTemporaryDirectory tmpdir) w))
                q Hq).
  destruct (body tmpdir _) as [r w1]. cbn [fs set_fs add_call snd] in *.
  rewrite lookup_rmtree, decide_False by by apply HQ.
  rewrite Hbody. apply lookup_insert_ne. intros ->. by apply (HQ q Hq).
Qed.

(** [main] changes nothing outside the scratch directory and, unless it
    is a dry run, the output path and the directories above it. *)
Lemma preserves_main args :
  (∀ q, Q q → ¬ tmpdir `prefix_of` q) →
  (dry_run args = false → ∀ q, Q q → ¬ q `prefix_of` output args) →
  preserves Q (main EXTENSION_DIR tmpdir json_load json_dumps zip_bytes args).
Proof.
  intros Htmp Hout. unfold main.
  apply preserves_bind; [apply preserves_validate_environment|intros _].
  apply preserves_bind;
    [destruct (dry_run args); [apply preserves_print|apply preserves_ret]|intros _].
  apply preserves_bind;
    [|intros [n|]; apply preserves_ret].
  apply preserves_with_TemporaryDirectory; [done|].
  apply preserves_bind; [|intros _].
  { apply preserves_copytree. intros q Hq Hp. apply (Htmp q Hq).
    etrans; [|exact Hp]. by apply prefix_app_r. }
  apply preserves_bind; [apply preserves_load_manifest|intros manifest].
  apply preserves_bind; [|intros manifest1].
  { destruct (version args) as [v|]; [destruct (Py.truthy v)|];
      auto using preserves_setitem, preserves_ret. }
  apply preserves_bind; [|intros manifest2].
  { destruct (normalize_host_patterns _ _);
      auto using preserves_setitem, preserves_ret. }
  destruct (dry_run args) eqn:Hdry.
  - repeat (apply preserves_bind; [|intros ?]);
      auto using preserves_print, preserves_get, preserves_ret.
  - apply preserves_bind; [|intros _].
    { apply preserves_write_manifest. intros q Hq ->. apply (Htmp _ Hq).
      rewrite <-(assoc_L (++)). by apply prefix_app_r. }
    apply preserves_bind; [by apply preserves_create_archive, Hout|intros _].
    apply preserves_bind; [apply preserves_print|intros _; apply preserves_ret].
Qed.

Lemma with_TemporaryDirectory_cleans {A} (body : path → M A) w q :
  tmpdir `prefix_of` q → fs w !! q = None →
  fs (with_TemporaryDirectory tmpdir body w).2 !! q = None.
Proof.
  intros Hq Hnone. unfold with_TemporaryDirectory.
  destruct (fs w !! tmpdir); [done|].
  destruct (body tmpdir _) as [r w1]. cbn [fs set_fs add_call snd].
  rewrite lookup_rmtree. by rewrite decide_True.
Qed.

(** Whatever happens, nothing is left at or below the scratch directory
    that was not there before. *)
Lemma main_cleans_scratch args w q :
  tmpdir `prefix_of` q → fs w !! q = None →
  fs (main EXTENSION_DIR tmpdir json_load json_dumps zip_bytes args w).2 !! q = None.
Proof.
  intros Hq Hnone. unfold main.
  unfold bind at 1.
  assert (fs (validate_environment EXTENSION_DIR w).2 = fs w) as Hval.
  { unfold validate_environment, bind, path_exists. by destruct (negb _). }
  destruct (validate_environment EXTENSION_DIR w) as [[[]|e] w1]; simpl in Hval;
    [|simpl; by rewrite Hval].
  unfold bind at 1.
  assert (∃ w2, (if dry_run args
                 then print "Running in dry-run mode; no files will be written."
                 else ret ()) w1 = (Ok (), w2) ∧ fs w2 = fs w) as (w2 & -> & Hw2).
  { destruct (dry_run args); eexists; (split; [reflexivity|done]). }
  unfold bind at 1.
  match goal with |- context [with_TemporaryDirectory tmpdir ?body w2] =>
    pose proof (with_TemporaryDirectory_cleans body w2 q Hq) as Hclean;
    destruct (with_TemporaryDirectory tmpdir body w2) as [[[n|]|e] w3]
  end; simpl in *; apply Hclean; by rewrite Hw2.
Qed.
End preserves_facts.

(** The common start of a run: the existence test, the notice of a dry
    run, the scratch directory and the copy of the tree. *)
Ltac enter_run Hdry Hdir Htmp Hwd :=
  unfold main; rewrite Hdry;
  rewrite (bind_Ok _ _ _ _ _
             (validate_environment_found _ _ (mk_is_Some _ _ Hdir)));
  erewrite bind_Ok by reflexivity;
  unfold bind at 1; unfold with_TemporaryDirectory;
  cbn [fs add_call add_stdout set_fs]; rewrite Htmp;
  erewrite (bind_Ok (copytree _ _));
    [|apply copytree_ok; cbn [fs add_call add_stdout set_fs];
      [rewrite lookup_insert_ne; [exact Hdir|];
       let E := fresh in intros E; rewrite E in Htmp; congruence
      |rewrite lookup_insert_ne;
       [exact Hwd|
        let E := fresh in
        intros E; apply (f_equal length) in E; rewrite length_app in E;
        simpl in E; lia]]].

Section run_facts.
Context (EXTENSION_DIR : path) (tmpdir : path)
        (json_load : string → option json)
        (json_dumps : json → string)
        (zip_bytes : list (string * string) → string).
Implicit Types (args : Namespace) (w : world) (d : list (string * json)).

Local Abbreviation run := (main EXTENSION_DIR tmpdir json_load json_dumps zip_bytes).
Local Abbreviation working_dir := (tmpdir ++ ["extension"]).
Local Abbreviation manifest_path := ((tmpdir ++ ["extension"]) ++ ["manifest.json"]).

(** X10: whatever the arguments and however the run ends, nothing is
    left at or below the scratch directory: a scratch name that was free
    before the run is free after it. *)
Theorem X10_scratch_always_removed args w q :
  fresh tmpdir (fs w) → tmpdir `prefix_of` q →
  fs (run args w).2 !! q = None.
Proof. intros Hfresh Hq. apply main_cleans_scratch; [done|by apply Hfresh]. Qed.


(** X12: a dry run leaves the whole file system as it was, also when it
    fails (no manifest, a manifest that does not parse or is not a
    dict). *)
Theorem X12_dry_run_never_changes_files args w :
  dry_run args = true → fresh tmpdir (fs w) →
  fs (run args w).2 = fs w.
Proof.
  intros Hdry Hfresh. apply map_eq. intros q.
  destruct (decide (tmpdir `prefix_of` q)) as [Hq|Hq].
  - rewrite (Hfresh q Hq). apply main_cleans_scratch; [done|by apply Hfresh].
  - apply (preserves_main EXTENSION_DIR tmpdir json_load json_dumps zip_bytes
             (λ q, ¬ tmpdir `prefix_of` q) args); [done| |done].
    intros Hf. by rewrite Hdry in Hf.
Qed.

(** *** Building the archive *)

Lemma lookup_mkdirs_elem (l : list path) (m : gmap path node) q :
  q ∈ l → foldr (λ q acc, <[q := Dir]> acc) m l !! q = Some Dir.
Proof.
  induction l as [|p l IH]; simpl; [by intros ?%elem_of_nil|].
  destruct (decide (q = p)) as [->|Hne]; [by rewrite lookup_insert_eq|].
  intros [?|?]%elem_of_cons; [done|]. rewrite lookup_insert_ne by done. auto.
Qed.

Lemma path_not_above_itself (p : path) : p ∉ path_prefixes (path_parent p).
Proof.
  unfold path_prefixes, path_parent.
  intros (n & Hp & Hn)%list_elem_of_fmap.
  apply (f_equal length) in Hp. rewrite !length_take in Hp.
  apply elem_of_seq in Hn. rewrite length_take in Hn. lia.
Qed.

Lemma elem_of_archive_members (source_dir : path) (m : gmap path node) name data :
  (name, data) ∈ omap (archive_member source_dir) (rglob_sorted source_dir m) ↔
  ∃ rel, rel ≠ [] ∧ name = as_posix rel ∧
         m !! (source_dir ++ rel) = Some (File data).
Proof.
  rewrite list_elem_of_omap. split.
  - intros ([p n] & [Hbelow Hm]%elem_of_rglob_sorted & Hmem).
    unfold archive_member, strictly_below in *. simpl in *.
    destruct n as [|data']; [done|].
    destruct (relative_to source_dir p) as [rel|] eqn:Erel; [|done].
    injection Hmem as <- <-. apply relative_to_Some in Erel as ->.
    exists rel. by destruct rel.
  - intros (rel & Hrel & -> & Hm). exists (source_dir ++ rel, File data). split.
    + apply elem_of_rglob_sorted. simpl. split; [|done].
      unfold strictly_below. rewrite relative_to_app. by destruct rel.
    + unfold archive_member. simpl. by rewrite relative_to_app.
Qed.

(** [create_archive] goes through when no directory above the output
    path is a regular file and the output path is not a directory. *)
Lemma create_archive_ok (source_dir output_path : path) w :
  (∀ q, q ∈ path_prefixes (path_parent output_path) → is_file (fs w !! q) = false) →
  fs w !! output_path ≠ Some Dir →
  let made := foldr (λ q acc, <[q := Dir]> acc) (fs w)
                (path_prefixes (path_parent output_path)) in
  let members := omap (archive_member source_dir)
                   (rglob_sorted source_dir
                      (<[output_path := File (zip_bytes [])]> made)) in
  create_archive zip_bytes source_dir output_path w
  = (Ok tt,
     World (<[output_path := File (zip_bytes members)]> made) (stdout w)
       (calls w ++ [CallMkdir (path_parent output_path); CallZipFile output_path])).
Proof.
  intros Hfiles Hdir made members. unfold create_archive.
  assert (mkdir_parents (path_parent output_path) w
          = (Ok tt, World made (stdout w)
                      (calls w ++ [CallMkdir (path_parent output_path)]))) as Hmk.
  { unfold mkdir_parents.
    destruct (find _ _) as [q|] eqn:Efind; [|done].
    apply find_some in Efind as [Hin Hq]. apply list_elem_of_In in Hin.
    by rewrite Hfiles in Hq. }
  rewrite (bind_Ok _ _ _ _ _ Hmk).
  assert (made !! output_path = fs w !! output_path) as Hout
    by apply lookup_mkdirs, path_not_above_itself.
  unfold bind at 1. unfold ZipFile_open. cbn [fs set_fs add_call].
  rewrite Hout.
  assert (∀ A (x y : A), match fs w !! output_path with
                         | Some Dir => x | _ => y end = y) as Hcase.
  { intros A x y. by destruct (fs w !! output_path) as [[|?]|]. }
  rewrite Hcase. unfold bind, archive_members, ZipFile_close.
  unfold set_fs, add_call. cbn [fs stdout calls].
  by rewrite insert_insert_eq, <-(assoc_L (++)).
Qed.
(** What a returning [create_archive] found: no regular file above the
    output path, and no directory at it. *)
Lemma create_archive_Ok_pre (source_dir output_path : path) w w1 :
  create_archive zip_bytes source_dir output_path w = (Ok tt, w1) →
  (∀ q, q ∈ path_prefixes (path_parent output_path) → is_file (fs w !! q) = false) ∧
  fs w !! output_path ≠ Some Dir.
Proof.
  unfold create_archive. intros H.
  apply bind_Ok_inv in H as ([] & w2 & Hmk & H).
  apply bind_Ok_inv in H as ([] & w3 & Hzip & _).
  unfold mkdir_parents in Hmk.
  destruct (find _ _) eqn:Efind in Hmk; [done|]. injection Hmk as <-. split.
  - intros q Hq. eapply find_none in Efind; [exact Efind|by apply list_elem_of_In].
  - intros Hdir. unfold ZipFile_open, set_fs, add_call in Hzip. cbn [fs] in Hzip.
    rewrite lookup_mkdirs in Hzip by apply path_not_above_itself.
    by rewrite Hdir in Hzip.
Qed.

(** X14: when [create_archive] returns, for an output path that does not
    lie in the source directory, it has put at the output path, in place
    of whatever was there, an archive whose members are exactly the
    regular files below the source directory, each under its relative
    posix name; the directories above the output path exist and every
    other path is as before. *)
Theorem X14_create_archive_contents (source_dir output_path : path) w w' :
  create_archive zip_bytes source_dir output_path w = (Ok tt, w') →
  ¬ source_dir `prefix_of` output_path →
  ∃ members,
    fs w' !! output_path = Some (File (zip_bytes members)) ∧
    (∀ name data,
       (name, data) ∈ members ↔
       ∃ rel, rel ≠ [] ∧ name = as_posix rel ∧
              fs w !! (source_dir ++ rel) = Some (File data)) ∧
    (∀ q, q ∈ path_prefixes (path_parent output_path) → fs w' !! q = Some Dir) ∧
    (∀ q, ¬ q `prefix_of` output_path → fs w' !! q = fs w !! q).
Proof.
  intros Hok Hsrc.
  destruct (create_archive_Ok_pre _ _ _ _ Hok) as [Hfiles Hdir].
  pose proof (create_archive_ok source_dir output_path w Hfiles Hdir) as Hrun.
  cbv zeta in Hrun. rewrite Hrun in Hok. injection Hok as <-.
  eexists. cbn [fs]. split; [apply lookup_insert_eq|]. split; [|split].
  - intros name data. rewrite elem_of_archive_members.
    assert (∀ rel,
      <[output_path:=File (zip_bytes [])]>
        (foldr (λ q acc, <[q:=Dir]> acc) (fs w)
           (path_prefixes (path_parent output_path))) !! (source_dir ++ rel)
      = fs w !! (source_dir ++ rel)) as Hlook.
    { intros rel. rewrite lookup_insert_ne.
      - apply lookup_mkdirs. intros Hin%elem_of_path_prefixes%prefix_of_parent.
        apply Hsrc. etrans; [|exact Hin]. by apply prefix_app_r.
      - intros ->. apply Hsrc. by apply prefix_app_r. }
    by setoid_rewrite Hlook.
  - intros q Hq. rewrite lookup_insert_ne.
    + by apply lookup_mkdirs_elem.
    + intros ->. by apply path_not_above_itself in Hq.
  - intros q Hq. rewrite lookup_insert_ne by (intros ->; by apply Hq).
    apply lookup_mkdirs. intros Hin%elem_of_path_prefixes%prefix_of_parent. by apply Hq.
Qed.

(** X15: when a directory above the output path is a regular file,
    [create_archive] raises at the [mkdir] and creates nothing; when the
    output path itself is a directory it raises [IsADirectoryError] after
    the directories above it were made. *)
Theorem X15_create_archive_errors (source_dir output_path : path) w :
  (∀ q, q ∈ path_prefixes (path_parent output_path) → is_file (fs w !! q) = true →
        ∃ e, create_archive zip_bytes source_dir output_path w
             = (Raise e, World (fs w) (stdout w)
                           (calls w ++ [CallMkdir (path_parent output_path)]))) ∧
  ((∀ q, q ∈ path_prefixes (path_parent output_path) → is_file (fs w !! q) = false) →
   fs w !! output_path = Some Dir →
   ∃ w', create_archive zip_bytes source_dir output_path w
         = (Raise (IsADirectoryError output_path), w') ∧
         fs w' !! output_path = Some Dir ∧
         ∀ q, q ∈ path_prefixes (path_parent output_path) → fs w' !! q = Some Dir).
Proof.
  split.
  - intros q Hin Hq. unfold create_archive, bind, mkdir_parents.
    destruct (find _ _) as [q'|] eqn:Efind; [by eexists|].
    eapply find_none in Efind; [|by apply list_elem_of_In].
    by rewrite Hq in Efind.
  - intros Hfiles Hdir. unfold create_archive, bind, mkdir_parents.
    destruct (find _ _) as [q'|] eqn:Efind.
    { apply find_some in Efind as [Hin Hq]. apply list_elem_of_In in Hin.
      by rewrite Hfiles in Hq. }
    unfold ZipFile_open, set_fs, add_call. cbn [fs].
    rewrite lookup_mkdirs by apply path_not_above_itself. rewrite Hdir.
    eexists. split; [reflexivity|]. cbn [fs]. split.
    + rewrite lookup_mkdirs by apply path_not_above_itself. done.
    + intros q Hq. by apply lookup_mkdirs_elem.
Qed.

(** *** A run that builds the archive *)

Lemma scratch_lookup_outside (m : gmap path node) n q :
  ¬ tmpdir `prefix_of` q →
  <[manifest_path := n]>
    (copy_entries EXTENSION_DIR working_dir (<[tmpdir := Dir]> m) (<[tmpdir := Dir]> m))
    !! q = m !! q.
Proof.
  intros Hq. rewrite lookup_insert_ne.
  - rewrite lookup_copy_entries.
    assert (relative_to working_dir q = None) as ->.
    { apply relative_to_None. intros Hw. apply Hq.
      etrans; [|exact Hw]. by apply prefix_app_r. }
    apply lookup_insert_ne. by intros ->.
  - intros <-. apply Hq. rewrite <-(assoc_L (++)). by apply prefix_app_r.
Qed.

Lemma scratch_lookup_inside (m : gmap path node) text rel data :
  fresh tmpdir m →
  <[manifest_path := File text]>
    (copy_entries EXTENSION_DIR working_dir (<[tmpdir := Dir]> m) (<[tmpdir := Dir]> m))
    !! (working_dir ++ rel) = Some (File data) ↔
  (rel = ["manifest.json"] ∧ data = text) ∨
  (rel ≠ ["manifest.json"] ∧ m !! (EXTENSION_DIR ++ rel) = Some (File data)).
Proof.
  intros Hfresh.
  destruct (decide (rel = ["manifest.json"])) as [->|Hrel].
  - rewrite lookup_insert_eq. naive_solver.
  - rewrite lookup_insert_ne by (by intros ?%(inj (app working_dir))).
    rewrite lookup_copy_entries, relative_to_app.
    assert (<[tmpdir:=Dir]> m !! (working_dir ++ rel) = None) as Hwd.
    { rewrite lookup_insert_ne.
      - apply Hfresh. rewrite <-(assoc_L (++)). by apply prefix_app_r.
      - rewrite <-(assoc_L (++)). intros E. apply (f_equal length) in E.
        rewrite length_app in E. simpl in E. lia. }
    rewrite Hwd.
    destruct (decide (tmpdir = EXTENSION_DIR ++ rel)) as [E|E].
    + rewrite <-E, lookup_insert_eq, (Hfresh tmpdir) by done. naive_solver.
    + rewrite lookup_insert_ne by done.
      destruct (m !! (EXTENSION_DIR ++ rel)); naive_solver.
Qed.

Lemma scratch_gone (m m4 : gmap path node) (l : list path) (out : path) n :
  fresh tmpdir m →
  ¬ tmpdir `prefix_of` out →
  (∀ q, q ∈ l → q `prefix_of` out) →
  (∀ q, ¬ tmpdir `prefix_of` q → m4 !! q = m !! q) →
  rmtree tmpdir (<[out := n]> (foldr (λ q acc, <[q := Dir]> acc) m4 l))
  = <[out := n]> (foldr (λ q acc, <[q := Dir]> acc) m l).
Proof.
  intros Hfresh Hout Hl Hm4. apply map_eq. intros q. rewrite lookup_rmtree.
  case_decide as Hq.
  - rewrite lookup_insert_ne by (by intros ->).
    rewrite lookup_mkdirs; [by rewrite Hfresh|].
    intros Hin%Hl. apply Hout. by etrans.
  - destruct (decide (q = out)) as [->|Hne]; [by rewrite !lookup_insert_eq|].
    rewrite !lookup_insert_ne by done.
    destruct (decide (q ∈ l)) as [Hin|Hin].
    + by rewrite !lookup_mkdirs_elem.
    + rewrite !lookup_mkdirs by done. by apply Hm4.
Qed.
(** The run that builds the archive, evaluated: from a file system in
    which every library call of the model goes through. *)
Lemma package_run_forward args w data d :
  dry_run args = false →
  fs w !! EXTENSION_DIR = Some Dir →
  fs w !! (EXTENSION_DIR ++ ["manifest.json"]) = Some (File data) →
  json_load data = Some (JObj d) →
  fresh tmpdir (fs w) →
  ¬ tmpdir `prefix_of` output args →
  (∀ q, q ∈ path_prefixes (path_parent (output args)) → is_file (fs w !! q) = false) →
  fs w !! output args ≠ Some Dir →
  ∃ members,
    run args w
    = (Ok 0%Z,
       World (<[output args := File (zip_bytes members)]>
                (foldr (λ q acc, <[q := Dir]> acc) (fs w)
                   (path_prefixes (path_parent (output args)))))
         (stdout w ++ ["Created package: " +:+ path_str (output args)])
         (calls w ++
          [CallExists EXTENSION_DIR;
           CallTemporaryDirectory tmpdir;
           CallCopytree EXTENSION_DIR working_dir;
           CallOpenRead manifest_path;
           CallOpenWrite manifest_path;
           CallMkdir (path_parent (output args));
           CallZipFile (output args);
           CallCleanup tmpdir])) ∧
    ∀ name text,
      (name, text) ∈ members ↔
      ∃ rel, rel ≠ [] ∧ name = as_posix rel ∧
        ((rel = ["manifest.json"] ∧
          text = json_dumps (JObj (edited_manifest args d)) +:+ newline) ∨
         (rel ≠ ["manifest.json"] ∧
          fs w !! (EXTENSION_DIR ++ rel) = Some (File text))).
Proof.
  intros Hdry Hdir Hsrc Hload Hfresh Hout Hfiles Hnodir.
  assert (fs w !! tmpdir = None) as Htmp by (by apply Hfresh).
  assert (fs w !! working_dir = None) as Hwd
    by (apply Hfresh; by apply prefix_app_r).
  assert (∀ q, q `prefix_of` output args → ¬ tmpdir `prefix_of` q) as Habove.
  { intros q Hq Ht. apply Hout. by etrans. }
  eexists. split.
  - enter_run Hdry Hdir Htmp Hwd.
    erewrite (bind_Ok (load_manifest _ _)); cycle 1.
    { eapply load_manifest_ok; [|exact Hload]. cbn [fs add_call set_fs].
      by apply lookup_scratch_manifest. }
    rewrite (bind_Ok _ _ _ _ _ (edit_version args d _)).
    rewrite (bind_Ok _ _ _ _ _ (edit_host_permissions args (with_version args d) _)).
    fold (edited_manifest args d).
    erewrite (bind_Ok (write_manifest _ _ _)); cycle 1.
    { eapply write_manifest_ok. cbn [fs add_call set_fs].
      by apply lookup_scratch_manifest. }
    match goal with |- context [bind (create_archive _ ?src ?out) _ ?w4] =>
      pose proof (create_archive_ok src out w4) as Harch
    end.
    cbv zeta in Harch. unfold set_fs, add_call in Harch. cbn [fs stdout calls] in Harch.
    unfold set_fs, add_call. cbn [fs stdout calls].
    match type of Harch with ?P1 → ?P2 → _ =>
      assert P1 as H1; [|assert P2 as H2; [|specialize (Harch H1 H2)]]
    end.
    + intros q Hq. rewrite scratch_lookup_outside; [by apply Hfiles|].
      by apply Habove, prefix_of_parent, elem_of_path_prefixes.
    + by rewrite scratch_lookup_outside.
    + rewrite (bind_Ok _ _ _ _ _ Harch).
      unfold bind, print, ret, add_stdout, add_call, set_fs. cbn [fs stdout calls].
      f_equal. f_equal; [|by rewrite <-!(assoc_L (++))].
      apply scratch_gone; [done..| |].
      * intros q Hq%elem_of_path_prefixes. by apply prefix_of_parent.
      * intros q Hq. by apply scratch_lookup_outside.
  - intros name text. rewrite elem_of_archive_members.
    assert (∀ rel n,
      <[output args := n]>
        (foldr (λ q acc, <[q:=Dir]> acc)
           (<[manifest_path :=
                File (json_dumps (JObj (edited_manifest args d)) +:+ newline)]>
              (copy_entries EXTENSION_DIR working_dir
                 (<[tmpdir:=Dir]> (fs w)) (<[tmpdir:=Dir]> (fs w))))
           (path_prefixes (path_parent (output args)))) !! (working_dir ++ rel)
      = <[manifest_path :=
            File (json_dumps (JObj (edited_manifest args d)) +:+ newline)]>
          (copy_entries EXTENSION_DIR working_dir
             (<[tmpdir:=Dir]> (fs w)) (<[tmpdir:=Dir]> (fs w)))
          !! (working_dir ++ rel)) as Hlook.
    { intros rel n.
      assert (tmpdir `prefix_of` working_dir ++ rel) as Hin
        by (rewrite <-(assoc_L (++)); by apply prefix_app_r).
      rewrite lookup_insert_ne by (intros E; apply Hout; by rewrite E).
      apply lookup_mkdirs. intros Hq%elem_of_path_prefixes%prefix_of_parent.
      by apply (Habove _ Hq). }
    setoid_rewrite Hlook. by setoid_rewrite (scratch_lookup_inside _ _ _ _ Hfresh).
Qed.
(** What a returning run that is not a dry run found on its way. *)
Lemma package_run_Ok_pre args w n w' data d :
  dry_run args = false →
  fresh tmpdir (fs w) →
  ¬ tmpdir `prefix_of` output args →
  fs w !! (EXTENSION_DIR ++ ["manifest.json"]) = Some (File data) →
  json_load data = Some (JObj d) →
  run args w = (Ok n, w') →
  fs w !! EXTENSION_DIR = Some Dir ∧
  (∀ q, q ∈ path_prefixes (path_parent (output args)) → is_file (fs w !! q) = false) ∧
  fs w !! output args ≠ Some Dir.
Proof.
  intros Hdry Hfresh Hout Hsrc Hload Hmain.
  assert (fs w !! tmpdir = None) as Htmp by (by apply Hfresh).
  unfold main in Hmain. rewrite Hdry in Hmain.
  apply bind_Ok_inv in Hmain as ([] & w1 & Hval & Hmain).
  destruct (fs w !! EXTENSION_DIR) as [n0|] eqn:Hext;
    [|by rewrite validate_environment_missing in Hval].
  rewrite validate_environment_found in Hval by done. injection Hval as <-.
  unfold bind at 1, ret at 1 in Hmain.
  apply bind_Ok_inv in Hmain as (returned & w2 & Hwith & _).
  unfold with_TemporaryDirectory in Hwith. cbn [fs add_call set_fs] in Hwith.
  rewrite Htmp in Hwith.
  match type of Hwith with (let '(_, _) := ?body in _) = _ =>
    destruct body as [r w3] eqn:Hbody end.
  injection Hwith as -> _.
  apply bind_Ok_inv in Hbody as ([] & w4 & Hcopy & Hbody).
  unfold copytree in Hcopy. cbn [fs add_call set_fs] in Hcopy.
  rewrite (lookup_insert_ne _ tmpdir EXTENSION_DIR) in Hcopy
    by (intros E; rewrite E in Htmp; congruence).
  rewrite Hext in Hcopy. destruct n0; [|done].
  destruct (<[tmpdir:=Dir]> (fs w) !! working_dir); [done|].
  injection Hcopy as <-.
  erewrite (bind_Ok (load_manifest _ _)) in Hbody; cycle 1.
  { eapply load_manifest_ok; [|exact Hload]. cbn [fs add_call set_fs].
    by apply lookup_scratch_manifest. }
  rewrite (bind_Ok _ _ _ _ _ (edit_version args d _)) in Hbody.
  rewrite (bind_Ok _ _ _ _ _ (edit_host_permissions args (with_version args d) _))
    in Hbody.
  erewrite (bind_Ok (write_manifest _ _ _)) in Hbody; cycle 1.
  { eapply write_manifest_ok. cbn [fs add_call set_fs].
    by apply lookup_scratch_manifest. }
  apply bind_Ok_inv in Hbody as ([] & w5 & Harch & _).
  apply create_archive_Ok_pre in Harch as [Hfiles Hdir].
  unfold set_fs, add_call in Hfiles, Hdir. cbn [fs] in Hfiles, Hdir.
  split; [done|]. split.
  - intros q Hq. specialize (Hfiles q Hq).
    rewrite scratch_lookup_outside in Hfiles; [done|].
    intros Ht. apply Hout. etrans; [exact Ht|].
    by apply prefix_of_parent, elem_of_path_prefixes.
  - by rewrite scratch_lookup_outside in Hdir.
Qed.

(** X16: a run that is not a dry run and returns, from an extension
    directory whose manifest reads as a [dict], with a scratch directory
    that is new and outside the extension directory and an output path
    outside the scratch directory, has returned 0 and printed one line,
    which starts with [Created package: ].  It leaves the file system as
    it was except for the directories above the output path and the
    archive.  The archive's members are exactly the regular files of the
    extension tree under their relative names, with their contents,
    except [manifest.json], which holds the edited manifest as text with
    a final line break. *)
Theorem X16_package_contents args w n w' data d :
  dry_run args = false →
  fs w !! (EXTENSION_DIR ++ ["manifest.json"]) = Some (File data) →
  json_load data = Some (JObj d) →
  fresh tmpdir (fs w) →
  ¬ EXTENSION_DIR `prefix_of` tmpdir →
  ¬ tmpdir `prefix_of` output args →
  run args w = (Ok n, w') →
  n = 0%Z ∧
  ∃ members shown,
    fs w' = <[output args := File (zip_bytes members)]>
              (foldr (λ q acc, <[q := Dir]> acc) (fs w)
                 (path_prefixes (path_parent (output args)))) ∧
    stdout w' = stdout w ++ ["Created package: " +:+ shown] ∧
    calls w' = calls w ++
      [CallExists EXTENSION_DIR;
       CallTemporaryDirectory tmpdir;
       CallCopytree EXTENSION_DIR working_dir;
       CallOpenRead manifest_path;
       CallOpenWrite manifest_path;
       CallMkdir (path_parent (output args));
       CallZipFile (output args);
       CallCleanup tmpdir] ∧
    ∀ name text,
      (name, text) ∈ members ↔
      ∃ rel, rel ≠ [] ∧ name = as_posix rel ∧
        ((rel = ["manifest.json"] ∧
          text = json_dumps (JObj (edited_manifest args d)) +:+ newline) ∨
         (rel ≠ ["manifest.json"] ∧
          fs w !! (EXTENSION_DIR ++ rel) = Some (File text))).
Proof.
  intros Hdry Hsrc Hload Hfresh _ Hout Hmain.
  destruct (package_run_Ok_pre args w n w' data d Hdry Hfresh Hout Hsrc Hload Hmain)
    as (Hdir & Hfiles & Hnodir).
  destruct (package_run_forward args w data d Hdry Hdir Hsrc Hload Hfresh Hout
              Hfiles Hnodir) as (members & Hrun & Hmem).
  rewrite Hrun in Hmain. injection Hmain as <- <-.
  split; [done|]. by exists members, (path_str (output args)).
Qed.

(** *** Runs that fail *)

Lemma lookup_scratch_copy (m : gmap path node) :
  fresh tmpdir m → ¬ EXTENSION_DIR `prefix_of` tmpdir →
  copy_entries EXTENSION_DIR working_dir (<[tmpdir := Dir]> m) (<[tmpdir := Dir]> m)
    !! manifest_path = m !! (EXTENSION_DIR ++ ["manifest.json"]).
Proof.
  intros Hfresh Hin. rewrite lookup_copy_entries, relative_to_app.
  rewrite (lookup_insert_ne _ tmpdir (EXTENSION_DIR ++ _))
    by (intros ->; apply Hin; by apply prefix_app_r).
  destruct (m !! (EXTENSION_DIR ++ ["manifest.json"])); [done|].
  rewrite lookup_insert_ne.
  - apply Hfresh. rewrite <-(assoc_L (++)). by apply prefix_app_r.
  - rewrite <-(assoc_L (++)). intros E. apply (f_equal length) in E.
    rewrite length_app in E. simpl in E. lia.
Qed.

Lemma scratch_dir_removed (m : gmap path node) :
  fresh tmpdir m → rmtree tmpdir (<[tmpdir := Dir]> m) = m.
Proof.
  intros Hfresh. apply map_eq. intros q. rewrite lookup_rmtree.
  case_decide as Hq; [by rewrite Hfresh|].
  apply lookup_insert_ne. by intros ->.
Qed.

(** The notice a dry run starts with. *)
Definition notice (args : Namespace) : list string :=
  if dry_run args
  then ["Running in dry-run mode; no files will be written."]
  else [].

(** X19: when the manifest of the extension directory cannot be read
    (there is none, it is a directory, or the reader gives no value for
    its bytes), the run raises: [FileNotFoundError] when there is none,
    [IsADirectoryError] when it is a directory.  It has printed at most
    the dry-run notice, written nothing, and the file system is as it
    was, without the scratch copy. *)
Theorem X19_unreadable_manifest args w :
  fs w !! EXTENSION_DIR = Some Dir →
  fresh tmpdir (fs w) →
  ¬ EXTENSION_DIR `prefix_of` tmpdir →
  match fs w !! (EXTENSION_DIR ++ ["manifest.json"]) with
  | Some (File data) => json_load data = None
  | _ => True
  end →
  ∃ e,
    run args w
    = (Raise e,
       World (fs w) (stdout w ++ notice args)
         (calls w ++
          [CallExists EXTENSION_DIR;
           CallTemporaryDirectory tmpdir;
           CallCopytree EXTENSION_DIR working_dir;
           CallOpenRead manifest_path;
           CallCleanup tmpdir])) ∧
    (fs w !! (EXTENSION_DIR ++ ["manifest.json"]) = None →
     e = FileNotFoundError manifest_path) ∧
    (fs w !! (EXTENSION_DIR ++ ["manifest.json"]) = Some Dir →
     e = IsADirectoryError manifest_path).
Proof.
  intros Hdir Hfresh Hin Hbad.
  assert (fs w !! tmpdir = None) as Htmp by (by apply Hfresh).
  assert (fs w !! working_dir = None) as Hwd
    by (apply Hfresh; by apply prefix_app_r).
  exists (match fs w !! (EXTENSION_DIR ++ ["manifest.json"]) with
          | None => FileNotFoundError manifest_path
          | Some Dir => IsADirectoryError manifest_path
          | Some (File _) => JSONDecodeError
          end).
  split; [|split; by intros ->].
  unfold notice.
  destruct (dry_run args) eqn:Hdry; enter_run Hdry Hdir Htmp Hwd;
    unfold bind at 1, load_manifest at 1, set_fs, add_call, add_stdout;
    cbn [fs stdout calls];
    rewrite (lookup_scratch_copy _ Hfresh Hin);
    (destruct (fs w !! (EXTENSION_DIR ++ ["manifest.json"])) as [[|data]|];
     [|rewrite Hbad|]);
    cbn [fs stdout calls]; rewrite scratch_removed by done;
    by rewrite <-?(assoc_L (++) (calls w)), ?(right_id_L [] (++)).
Qed.

(** X20: the precondition check is an existence test only.  When the
    extension directory is a regular file the check passes, the scratch
    directory is made, [copytree] raises [NotADirectoryError], and the
    scratch directory is removed again; nothing else has changed. *)
Theorem X20_source_is_a_file args w data :
  fs w !! EXTENSION_DIR = Some (File data) →
  fresh tmpdir (fs w) →
  run args w
  = (Raise (NotADirectoryError EXTENSION_DIR),
     World (fs w) (stdout w ++ notice args)
       (calls w ++
        [CallExists EXTENSION_DIR;
         CallTemporaryDirectory tmpdir;
         CallCopytree EXTENSION_DIR working_dir;
         CallCleanup tmpdir])).
Proof.
  intros Hfile Hfresh.
  assert (fs w !! tmpdir = None) as Htmp by (by apply Hfresh).
  assert (tmpdir ≠ EXTENSION_DIR) as Hne by (intros E; rewrite E in Htmp; congruence).
  unfold main, notice.
  rewrite (bind_Ok _ _ _ _ _
             (validate_environment_found _ _ (mk_is_Some _ _ Hfile))).
  destruct (dry_run args);
    (erewrite bind_Ok by reflexivity);
    unfold bind at 1; unfold with_TemporaryDirectory;
    unfold bind at 1, copytree at 1, set_fs, add_call, add_stdout;
    cbn [fs stdout calls]; rewrite Htmp;
    rewrite (lookup_insert_ne _ tmpdir EXTENSION_DIR) by done; rewrite Hfile;
    cbn [fs stdout calls]; rewrite scratch_dir_removed by done;
    by rewrite <-?(assoc_L (++) (calls w)), ?(right_id_L [] (++)).
Qed.
Lemma setitem_not_dict (v : json) k x w :
  (∀ d, v ≠ JObj d) → setitem v k x w = (Raise TypeError, w).
Proof. intros Hv. destruct v; try done. by destruct (Hv members). Qed.

(** X21: when the manifest parses to something that is not a [dict] and
    an edit is due (a non-empty version, or a non-empty pattern list),
    the item assignment raises [TypeError]; nothing has been written and
    the file system is as it was.  The scratch directory is new and
    outside the extension directory. *)
Theorem X21_manifest_not_a_dict args w data v :
  fs w !! EXTENSION_DIR = Some Dir →
  fs w !! (EXTENSION_DIR ++ ["manifest.json"]) = Some (File data) →
  json_load data = Some v →
  (∀ d, v ≠ JObj d) →
  (∃ s, version args = Some s ∧ s ≠ EmptyString) ∨
  normalize_host_patterns (hosts args) (allow_http args) ≠ [] →
  fresh tmpdir (fs w) →
  ¬ EXTENSION_DIR `prefix_of` tmpdir →
  run args w
  = (Raise TypeError,
     World (fs w) (stdout w ++ notice args)
       (calls w ++
        [CallExists EXTENSION_DIR;
         CallTemporaryDirectory tmpdir;
         CallCopytree EXTENSION_DIR working_dir;
         CallOpenRead manifest_path;
         CallCleanup tmpdir])).
Proof.
  intros Hdir Hsrc Hload Hv Hedit Hfresh _.
  assert (fs w !! tmpdir = None) as Htmp by (by apply Hfresh).
  assert (fs w !! working_dir = None) as Hwd
    by (apply Hfresh; by apply prefix_app_r).
  assert (∀ w1 (k : json → M (option Z)),
    bind (match version args with
          | Some s => if Py.truthy s then setitem v "version" (JStr s) else ret v
          | None => ret v
          end)
      (λ manifest,
         bind (match normalize_host_patterns (hosts args) (allow_http args) with
               | [] => ret manifest
               | _ :: _ =>
                   setitem manifest "host_permissions"
                     (JArr (JStr <$> normalize_host_patterns (hosts args)
                                       (allow_http args)))
               end) k) w1
    = (Raise TypeError, w1)) as Hraise.
  { intros w1 k. unfold bind.
    destruct (version args) as [s|] eqn:Es; [destruct s as [|c s]|]; cbn [Py.truthy].
    - destruct Hedit as [(s' & [= <-] & ?)|Hne]; [done|].
      unfold ret. destruct (normalize_host_patterns _ _); [done|].
      by rewrite setitem_not_dict.
    - by rewrite setitem_not_dict.
    - destruct Hedit as [(s' & [=] & ?)|Hne].
      unfold ret. destruct (normalize_host_patterns _ _); [done|].
      by rewrite setitem_not_dict. }
  unfold notice.
  destruct (dry_run args) eqn:Hdry; enter_run Hdry Hdir Htmp Hwd;
    (erewrite (bind_Ok (load_manifest _ _));
       [|eapply load_manifest_ok; [|exact Hload]; cbn [fs add_call set_fs];
         by apply lookup_scratch_manifest]);
    rewrite Hraise;
    unfold set_fs, add_call, add_stdout; cbn [fs stdout calls];
    rewrite scratch_removed by done;
    by rewrite <-?(assoc_L (++) (calls w)), ?(right_id_L [] (++)).
Qed.

(** *** The keys of the edited manifest *)

Lemma dict_set_keys k v (d : list (string * json)) :
  (dict_set k v d).*1 = if decide (k ∈ d.*1) then d.*1 else d.*1 ++ [k].
Proof.
  induction d as [|[k' v'] d IH]; [done|]. cbn [dict_set].
  destruct (String.eqb_spec k' k) as [->|Hne]; rewrite !fmap_cons; cbn [fst].
  - rewrite decide_True; [done|]. apply list_elem_of_here.
  - rewrite IH. destruct (decide (k ∈ d.*1)) as [Hin|Hin].
    + rewrite decide_True; [done|]. by apply list_elem_of_further.
    + rewrite decide_False; [done|]. by intros [?|?]%elem_of_cons.
Qed.

Lemma dict_set_keys_prefix k v (d : list (string * json)) :
  d.*1 `prefix_of` (dict_set k v d).*1.
Proof. rewrite dict_set_keys. case_decide; [done|by apply prefix_app_r]. Qed.

Lemma dict_set_keys_NoDup k v (d : list (string * json)) :
  NoDup d.*1 → NoDup (dict_set k v d).*1.
Proof.
  intros Hd. rewrite dict_set_keys. case_decide as Hin; [done|].
  apply NoDup_app. split; [done|]. split; [|apply NoDup_singleton].
  by intros x Hx ->%list_elem_of_singleton.
Qed.

(** X18: in a run that builds the archive the two edits touch nothing
    else of the manifest: every key other than [version] and
    [host_permissions] has the value it was loaded with, the keys that
    were there keep their order (a new key goes after them), and no key
    is repeated. *)
Theorem X18_other_manifest_keys_kept args w n w' data d :
  dry_run args = false →
  ¬ tmpdir `prefix_of` output args →
  fs w !! (EXTENSION_DIR ++ ["manifest.json"]) = Some (File data) →
  json_load data = Some (JObj d) →
  run args w = (Ok n, w') →
  ∃ members,
    fs w' !! output args = Some (File (zip_bytes members)) ∧
    ("manifest.json", json_dumps (JObj (edited_manifest args d)) +:+ newline)
      ∈ members ∧
    (∀ k, k ≠ "version" → k ≠ "host_permissions" →
          dict_get k (edited_manifest args d) = dict_get k d) ∧
    d.*1 `prefix_of` (edited_manifest args d).*1 ∧
    (NoDup d.*1 → NoDup (edited_manifest args d).*1).
Proof.
  intros Hdry Hout Hsrc Hload Hmain.
  destruct (main_package_inv EXTENSION_DIR tmpdir json_load json_dumps zip_bytes
              args w n w' data d Hdry Hout Hsrc Hload Hmain)
    as (_ & members & Hfs & Hmem).
  exists members. split; [done|]. split; [done|].
  unfold edited_manifest, with_host_permissions, with_version.
  split; [|split].
  - intros k Hv Hh.
    destruct (normalize_host_patterns _ _);
      destruct (version args) as [ver|]; try destruct (Py.truthy ver);
      rewrite ?dict_get_set_ne by done; done.
  - destruct (normalize_host_patterns _ _);
      destruct (version args) as [ver|]; try destruct (Py.truthy ver);
      repeat (etrans; [|apply dict_set_keys_prefix]); done.
  - intros Hd.
    destruct (normalize_host_patterns _ _);
      destruct (version args) as [ver|]; try destruct (Py.truthy ver);
      auto using dict_set_keys_NoDup.
Qed.
End run_facts.

(** ** More concrete runs *)

Module DemoMore.
Import Demo.

(** A reader that knows the empty JSON array. *)
Definition load_array (text : string) : option json :=
  if String.eqb text "[]" then Some (JArr []) else None.

(** The extension directory without a manifest. *)
Definition w_no_manifest : world :=
  World (list_to_map [(["repo"], Dir); (["repo"; "extension"], Dir)]) [] [].

(** A regular file where the extension directory should be. *)
Definition w_source_file : world :=
  World (list_to_map [(["repo"], Dir); (["repo"; "extension"], File "stray")]) [] [].

(** A manifest that is a JSON array. *)
Definition w_array_manifest : world :=
  World (list_to_map
           [(["repo"], Dir);
            (["repo"; "extension"], Dir);
            (["repo"; "extension"; "manifest.json"], File "[]")]) [] [].

(** A regular file where the directory of the archive should be. *)
Definition w_blocked : world :=
  World (list_to_map
           [(["repo"], Dir);
            (["repo"; "dist"], File "stray");
            (["repo"; "extension"], Dir)]) [] [].
End DemoMore.

Ltac solve_fresh :=
  let q := fresh "q" in let k := fresh "k" in
  intros q [k ->]; cbn [fs]; apply not_elem_of_list_to_map_1;
  cbn [fmap list_fmap fst]; unfold Demo.tmpdir;
  repeat (apply not_elem_of_cons; split; [discriminate|]);
  apply not_elem_of_nil.

Section demo_more_facts.
Import Demo DemoMore.

Lemma demo_no_manifest_fresh : fresh tmpdir (fs w_no_manifest).
Proof. unfold w_no_manifest. solve_fresh. Qed.

Lemma demo_source_file_fresh : fresh tmpdir (fs w_source_file).
Proof. unfold w_source_file. solve_fresh. Qed.

Lemma demo_array_manifest_fresh : fresh tmpdir (fs w_array_manifest).
Proof. unfold w_array_manifest. solve_fresh. Qed.

Lemma demo_source_not_above_output : ¬ EXTENSION_DIR `prefix_of` dist.
Proof. intros [k Hk]. discriminate Hk. Qed.

Lemma demo_output_clear q :
  q ∈ path_prefixes (path_parent dist) → is_file (fs w0 !! q) = false.
Proof.
  change (path_prefixes (path_parent dist)) with [["repo"]; ["repo"; "dist"]].
  intros [->|[->|[]%elem_of_nil]%elem_of_cons]%elem_of_cons; vm_compute; reflexivity.
Qed.

Lemma demo_output_not_dir : fs w0 !! dist ≠ Some Dir.
Proof. vm_compute. discriminate. Qed.

Lemma demo_source_dir : fs w0 !! EXTENSION_DIR = Some Dir.
Proof. vm_compute. reflexivity. Qed.
End demo_more_facts.

Lemma X10_witness :
  fs (Demo.run Demo.args_release).2 !! (Demo.tmpdir ++ ["extension"; "manifest.json"])
  = None.
Proof.
  apply (X10_scratch_always_removed
           Demo.EXTENSION_DIR Demo.tmpdir Demo.load Demo.dumps Demo.zip_bytes
           Demo.args_release Demo.w0 _ demo_fresh).
  by apply prefix_app_r.
Defined.


Lemma X12_witness : fs (Demo.run Demo.args_preview).2 = Demo.fs0.
Proof.
  exact (X12_dry_run_never_changes_files
           Demo.EXTENSION_DIR Demo.tmpdir Demo.load Demo.dumps Demo.zip_bytes
           Demo.args_preview Demo.w0 eq_refl demo_fresh).
Defined.

Lemma X14_witness :
  ∃ members,
    fs (create_archive Demo.zip_bytes Demo.EXTENSION_DIR Demo.dist Demo.w0).2 !! Demo.dist
    = Some (File (Demo.zip_bytes members)) ∧
    ("assets/icon.png", "PNG") ∈ members ∧
    fs (create_archive Demo.zip_bytes Demo.EXTENSION_DIR Demo.dist Demo.w0).2
      !! ["repo"; "dist"] = Some Dir.
Proof.
  destruct (X14_create_archive_contents Demo.zip_bytes Demo.EXTENSION_DIR Demo.dist
              Demo.w0
              (create_archive Demo.zip_bytes Demo.EXTENSION_DIR Demo.dist Demo.w0).2
              ltac:(vm_compute; reflexivity) demo_source_not_above_output)
    as (members & Hfs & Hmem & Hdirs & _).
  exists members. split; [exact Hfs|]. split.
  - apply Hmem. exists ["assets"; "icon.png"].
    split; [discriminate|]. split; vm_compute; reflexivity.
  - apply Hdirs.
    change (path_prefixes (path_parent Demo.dist)) with [["repo"]; ["repo"; "dist"]].
    apply list_elem_of_further, list_elem_of_here.
Defined.

Lemma X15_witness :
  ∃ e, create_archive Demo.zip_bytes Demo.EXTENSION_DIR Demo.dist DemoMore.w_blocked
       = (Raise e,
          World (fs DemoMore.w_blocked) [] [CallMkdir (path_parent Demo.dist)]).
Proof.
  apply (proj1 (X15_create_archive_errors Demo.zip_bytes Demo.EXTENSION_DIR Demo.dist
                  DemoMore.w_blocked) ["repo"; "dist"]).
  - change (path_prefixes (path_parent Demo.dist)) with [["repo"]; ["repo"; "dist"]].
    apply list_elem_of_further, list_elem_of_here.
  - vm_compute. reflexivity.
Defined.

Lemma X16_witness :
  ∃ members shown,
    fs (Demo.run Demo.args_release).2
    = <[Demo.dist := File (Demo.zip_bytes members)]>
        (<[["repo"] := Dir]> (<[["repo"; "dist"] := Dir]> Demo.fs0)) ∧
    stdout (Demo.run Demo.args_release).2 = ["Created package: " +:+ shown] ∧
    ("assets/icon.png", "PNG") ∈ members.
Proof.
  destruct (X16_package_contents
              Demo.EXTENSION_DIR Demo.tmpdir Demo.load Demo.dumps Demo.zip_bytes
              Demo.args_release Demo.w0 0%Z (Demo.run Demo.args_release).2
              (Demo.dumps Demo.manifest0) Demo.members0
              eq_refl demo_manifest demo_load demo_fresh demo_source_outside
              demo_output_outside
              (demo_run_ok Demo.args_release ltac:(vm_compute; reflexivity)))
    as (_ & members & shown & Hfs & Hout & _ & Hmem).
  exists members, shown. split; [exact Hfs|]. split; [exact Hout|].
  apply Hmem. exists ["assets"; "icon.png"].
  split; [discriminate|]. split; [reflexivity|]. right.
  split; [discriminate|]. vm_compute. reflexivity.
Defined.

Lemma X18_witness :
  ∃ members,
    fs (Demo.run Demo.args_release).2 !! Demo.dist
    = Some (File (Demo.zip_bytes members)) ∧
    dict_get "name" (edited_manifest Demo.args_release Demo.members0)
    = Some (JStr "ChromeOS Graylog Agent").
Proof.
  destruct (X18_other_manifest_keys_kept
              Demo.EXTENSION_DIR Demo.tmpdir Demo.load Demo.dumps Demo.zip_bytes
              Demo.args_release Demo.w0 0%Z (Demo.run Demo.args_release).2
              (Demo.dumps Demo.manifest0) Demo.members0
              eq_refl demo_output_outside demo_manifest demo_load
              (demo_run_ok Demo.args_release ltac:(vm_compute; reflexivity)))
    as (members & Hfs & _ & Hkeys & _).
  exists members. split; [exact Hfs|].
  rewrite Hkeys; [reflexivity|discriminate..].
Defined.

Lemma X19_witness :
  main Demo.EXTENSION_DIR Demo.tmpdir Demo.load Demo.dumps Demo.zip_bytes
    Demo.args_release DemoMore.w_no_manifest
  = (Raise (FileNotFoundError ((Demo.tmpdir ++ ["extension"]) ++ ["manifest.json"])),
     World (fs DemoMore.w_no_manifest) []
       [CallExists Demo.EXTENSION_DIR;
        CallTemporaryDirectory Demo.tmpdir;
        CallCopytree Demo.EXTENSION_DIR (Demo.tmpdir ++ ["extension"]);
        CallOpenRead ((Demo.tmpdir ++ ["extension"]) ++ ["manifest.json"]);
        CallCleanup Demo.tmpdir]).
Proof.
  destruct (X19_unreadable_manifest
              Demo.EXTENSION_DIR Demo.tmpdir Demo.load Demo.dumps Demo.zip_bytes
              Demo.args_release DemoMore.w_no_manifest
              ltac:(vm_compute; reflexivity) demo_no_manifest_fresh
              demo_source_outside ltac:(vm_compute; exact I))
    as (e & Hrun & Hnone & _).
  rewrite Hrun, Hnone; [reflexivity|]. vm_compute. reflexivity.
Defined.

Lemma X20_witness :
  main Demo.EXTENSION_DIR Demo.tmpdir Demo.load Demo.dumps Demo.zip_bytes
    Demo.args_preview DemoMore.w_source_file
  = (Raise (NotADirectoryError Demo.EXTENSION_DIR),
     World (fs DemoMore.w_source_file)
       ["Running in dry-run mode; no files will be written."]
       [CallExists Demo.EXTENSION_DIR;
        CallTemporaryDirectory Demo.tmpdir;
        CallCopytree Demo.EXTENSION_DIR (Demo.tmpdir ++ ["extension"]);
        CallCleanup Demo.tmpdir]).
Proof.
  exact (X20_source_is_a_file
           Demo.EXTENSION_DIR Demo.tmpdir Demo.load Demo.dumps Demo.zip_bytes
           Demo.args_preview DemoMore.w_source_file "stray"
           ltac:(vm_compute; reflexivity) demo_source_file_fresh).
Defined.

Lemma X21_witness :
  main Demo.EXTENSION_DIR Demo.tmpdir DemoMore.load_array Demo.dumps Demo.zip_bytes
    Demo.args_release DemoMore.w_array_manifest
  = (Raise TypeError,
     World (fs DemoMore.w_array_manifest) []
       [CallExists Demo.EXTENSION_DIR;
        CallTemporaryDirectory Demo.tmpdir;
        CallCopytree Demo.EXTENSION_DIR (Demo.tmpdir ++ ["extension"]);
        CallOpenRead ((Demo.tmpdir ++ ["extension"]) ++ ["manifest.json"]);
        CallCleanup Demo.tmpdir]).
Proof.
  apply (X21_manifest_not_a_dict
           Demo.EXTENSION_DIR Demo.tmpdir DemoMore.load_array Demo.dumps Demo.zip_bytes
           Demo.args_release DemoMore.w_array_manifest "[]" (JArr [])).
  - vm_compute. reflexivity.
  - vm_compute. reflexivity.
  - reflexivity.
  - discriminate.
  - left. exists "2.0". split; [reflexivity|discriminate].
  - exact demo_array_manifest_fresh.
  - exact demo_source_outside.
Defined.

(** ** What a failing run prints *)

(** A computation that prints nothing. *)
Definition quiet {A} (m : M A) : Prop := ∀ w, stdout (m w).2 = stdout w.

(** A computation that has printed nothing when it raises. *)
Definition raises_quietly {A} (m : M A) : Prop :=
  ∀ w e w', m w = (Raise e, w') → stdout w' = stdout w.

Section quiet_facts.
Context (EXTENSION_DIR : path) (tmpdir : path)
        (json_load : string → option json)
        (json_dumps : json → string)
        (zip_bytes : list (string * string) → string).
Implicit Types (args : Namespace) (w : world).

Local Abbreviation run := (main EXTENSION_DIR tmpdir json_load json_dumps zip_bytes).
Local Abbreviation working_dir := (tmpdir ++ ["extension"]).
Local Abbreviation manifest_path := ((tmpdir ++ ["extension"]) ++ ["manifest.json"]).

Lemma quiet_ret {A} (a : A) : quiet (ret a).
Proof. by intros w. Qed.

Lemma quiet_bind {A B} (m : M A) (k : A → M B) :
  quiet m → (∀ a, quiet (k a)) → quiet (bind m k).
Proof.
  intros Hm Hk w. unfold bind. specialize (Hm w).
  destruct (m w) as [[a|e] w1]; simpl in *; [|done]. by rewrite Hk.
Qed.

Lemma quiet_validate_environment : quiet (validate_environment EXTENSION_DIR).
Proof. intros w. unfold validate_environment, bind, path_exists. by destruct (negb _). Qed.

Lemma quiet_copytree (src dst : path) : quiet (copytree src dst).
Proof.
  intros w. unfold copytree. destruct (fs w !! src) as [[|?]|]; [|done..].
  by destruct (fs w !! dst).
Qed.

Lemma quiet_load_manifest p : quiet (load_manifest json_load p).
Proof.
  intros w. unfold load_manifest. destruct (fs w !! p) as [[|data]|]; [done| |done].
  by destruct (json_load data).
Qed.

Lemma quiet_setitem (manifest : json) k v : quiet (setitem manifest k v).
Proof. intros w. by destruct manifest. Qed.

Lemma quiet_write_manifest p manifest : quiet (write_manifest json_dumps p manifest).
Proof. intros w. unfold write_manifest. by destruct (fs w !! p) as [[|?]|]. Qed.

Lemma quiet_create_archive (source_dir output_path : path) :
  quiet (create_archive zip_bytes source_dir output_path).
Proof.
  unfold create_archive. repeat (apply quiet_bind; [|intros ?]).
  - intros w. unfold mkdir_parents. by destruct (find _ _).
  - intros w. unfold ZipFile_open. by destruct (fs w !! output_path) as [[|?]|].
  - by intros w.
  - by intros w.
Qed.

Lemma raises_quietly_quiet {A} (m : M A) : quiet m → raises_quietly m.
Proof. intros Hm w e w' H. specialize (Hm w). by rewrite H in Hm. Qed.

Lemma raises_quietly_bind {A B} (m : M A) (k : A → M B) :
  quiet m → (∀ a, raises_quietly (k a)) → raises_quietly (bind m k).
Proof.
  intros Hm Hk w e w'. unfold bind. specialize (Hm w).
  destruct (m w) as [[a|e1] w1]; simpl in *.
  - intros H. by rewrite (Hk a w1 e w' H).
  - by intros [= _ <-].
Qed.

Lemma raises_quietly_with_TemporaryDirectory {A} (body : path → M A) :
  raises_quietly (body tmpdir) →
  raises_quietly (with_TemporaryDirectory tmpdir body).
Proof.
  intros Hbody w e w'. unfold with_TemporaryDirectory.
  destruct (fs w !! tmpdir); [by intros [= _ <-]|].
  destruct (body tmpdir _) as [r w1] eqn:E. intros [= -> <-].
  apply Hbody in E. unfold set_fs, add_call in *. by cbn [stdout] in *.
Qed.

(** X23: a run that is not a dry run and raises has printed nothing: the
    line that names the package is printed only after the archive was
    written. *)
Theorem X23_failure_prints_nothing args w e w' :
  dry_run args = false →
  run args w = (Raise e, w') →
  stdout w' = stdout w.
Proof.
  intros Hdry. revert w e w'. fold (raises_quietly (run args)).
  unfold main. rewrite Hdry.
  apply raises_quietly_bind; [apply quiet_validate_environment|intros _].
  apply raises_quietly_bind; [apply quiet_ret|intros _].
  intros w e w' H. unfold bind in H.
  destruct (with_TemporaryDirectory _ _ w) as [[[n|]|e1] w1] eqn:E; [done..|].
  injection H as <- <-. revert w e1 w1 E.
  apply raises_quietly_with_TemporaryDirectory.
  apply raises_quietly_bind; [apply quiet_copytree|intros _].
  apply raises_quietly_bind; [apply quiet_load_manifest|intros manifest].
  apply raises_quietly_bind; [|intros manifest1].
  { destruct (version args) as [v|]; [destruct (Py.truthy v)|];
      auto using quiet_setitem, quiet_ret. }
  apply raises_quietly_bind; [|intros manifest2].
  { destruct (normalize_host_patterns _ _); auto using quiet_setitem, quiet_ret. }
  apply raises_quietly_bind; [apply quiet_write_manifest|intros _].
  apply raises_quietly_bind; [apply quiet_create_archive|intros _].
  by intros w e w'.
Qed.

Lemma get_not_dict (v : json) k x w :
  (∀ d, v ≠ JObj d) → get v k x w = (Raise AttributeError, w).
Proof. intros Hv. destruct v; try done. by destruct (Hv members). Qed.

(** X22: in a dry run with no edit due, a manifest that parses to
    something that is not a [dict] makes the preview raise
    [AttributeError] after its header was printed; the file system is as
    it was.  The scratch directory is new and outside the extension
    directory. *)
Theorem X22_preview_of_non_dict args w data v :
  dry_run args = true →
  fs w !! EXTENSION_DIR = Some Dir →
  fs w !! (EXTENSION_DIR ++ ["manifest.json"]) = Some (File data) →
  json_load data = Some v →
  (∀ d, v ≠ JObj d) →
  version args = None ∨ version args = Some EmptyString →
  normalize_host_patterns (hosts args) (allow_http args) = [] →
  fresh tmpdir (fs w) →
  ¬ EXTENSION_DIR `prefix_of` tmpdir →
  run args w
  = (Raise AttributeError,
     World (fs w)
       (stdout w ++ ["Running in dry-run mode; no files will be written.";
                     "Manifest preview:"])
       (calls w ++
        [CallExists EXTENSION_DIR;
         CallTemporaryDirectory tmpdir;
         CallCopytree EXTENSION_DIR working_dir;
         CallOpenRead manifest_path;
         CallCleanup tmpdir])).
Proof.
  intros Hdry Hdir Hsrc Hload Hv Hver Hhosts Hfresh _.
  assert (fs w !! tmpdir = None) as Htmp by (by apply Hfresh).
  assert (fs w !! working_dir = None) as Hwd
    by (apply Hfresh; by apply prefix_app_r).
  enter_run Hdry Hdir Htmp Hwd.
  erewrite (bind_Ok (load_manifest _ _)); cycle 1.
  { eapply load_manifest_ok; [|exact Hload]. cbn [fs add_call set_fs].
    by apply lookup_scratch_manifest. }
  rewrite Hhosts.
  assert (∀ w1, (match version args with
                 | Some s => if Py.truthy s then setitem v "version" (JStr s) else ret v
                 | None => ret v
                 end) w1 = (Ok v, w1)) as Hkeep.
  { intros w1. by destruct Hver as [-> | ->]. }
  rewrite (bind_Ok _ _ _ _ _ (Hkeep _)).
  erewrite bind_Ok by reflexivity.
  erewrite bind_Ok by reflexivity.
  erewrite bind_Raise by (by apply get_not_dict).
  unfold set_fs, add_call, add_stdout. cbn [fs stdout calls].
  rewrite scratch_removed by done.
  by rewrite <-!(assoc_L (++) (calls w)), <-!(assoc_L (++) (stdout w)).
Qed.
End quiet_facts.

Lemma X22_witness :
  main Demo.EXTENSION_DIR Demo.tmpdir DemoMore.load_array Demo.dumps Demo.zip_bytes
    {| output := Demo.dist; hosts := ["  "]; allow_http := true;
       version := None; dry_run := true |} DemoMore.w_array_manifest
  = (Raise AttributeError,
     World (fs DemoMore.w_array_manifest)
       ["Running in dry-run mode; no files will be written."; "Manifest preview:"]
       [CallExists Demo.EXTENSION_DIR;
        CallTemporaryDirectory Demo.tmpdir;
        CallCopytree Demo.EXTENSION_DIR (Demo.tmpdir ++ ["extension"]);
        CallOpenRead ((Demo.tmpdir ++ ["extension"]) ++ ["manifest.json"]);
        CallCleanup Demo.tmpdir]).
Proof.
  apply (X22_preview_of_non_dict
           Demo.EXTENSION_DIR Demo.tmpdir DemoMore.load_array Demo.dumps Demo.zip_bytes
           _ DemoMore.w_array_manifest "[]" (JArr [])).
  - reflexivity.
  - vm_compute. reflexivity.
  - vm_compute. reflexivity.
  - reflexivity.
  - discriminate.
  - by left.
  - vm_compute. reflexivity.
  - exact demo_array_manifest_fresh.
  - exact demo_source_outside.
Defined.

Lemma X23_witness :
  stdout
    (main Demo.EXTENSION_DIR Demo.tmpdir Demo.load Demo.dumps Demo.zip_bytes
       Demo.args_release DemoMore.w_no_manifest).2 = [].
Proof.
  apply (X23_failure_prints_nothing
           Demo.EXTENSION_DIR Demo.tmpdir Demo.load Demo.dumps Demo.zip_bytes
           Demo.args_release DemoMore.w_no_manifest
           (FileNotFoundError ((Demo.tmpdir ++ ["extension"]) ++ ["manifest.json"]))
           _ eq_refl).
  vm_compute. reflexivity.
Defined.
